(** * GradeGraph: column classification and mark aggregation

    A shallow embedding of the column classifier and aggregation helpers of
    [src/app.py] and [src/services/subjects.py], with the properties that
    the specification states about them.

    Modelling conventions.
    - Python [str] values are modelled by [string]; the embedding covers
      ASCII text, on which [str.upper], [str.title], [str.strip] and the
      regular-expression class [\w] act as defined in [Py] below.
    - Python floats are modelled by exact rationals [Q]; the float [nan] is
      a separate constructor ([FNaN]).  Rounding and infinities are outside
      the model.
    - A pandas row is a finite map from column header to cell. *)

From Stdlib Require Import Ascii QArith Qminmax Qreals Reals Psatz Lia.
Close Scope Q_scope.
From stdpp Require Import gmap strings list sorting.

(** ** Python string built-ins, on ASCII text *)

Module Py.

Definition in_range (lo hi : nat) (c : ascii) : bool :=
  let n := nat_of_ascii c in (lo <=? n) && (n <=? hi).

Definition is_lower : ascii → bool := in_range 97 122.
Definition is_upper : ascii → bool := in_range 65 90.
Definition is_digit : ascii → bool := in_range 48 57.
Definition is_cased (c : ascii) : bool := is_lower c || is_upper c.

(** [str.isspace] on ASCII: TAB..CR, FS..US and the blank. *)
Definition is_space (c : ascii) : bool := in_range 9 13 c || in_range 28 32 c.

(** The class [\w] of [re]: alphanumerics and the underscore. *)
Definition is_word (c : ascii) : bool :=
  is_cased c || is_digit c || Ascii.eqb c "_".

Definition upper_char (c : ascii) : ascii :=
  if is_lower c then ascii_of_nat (nat_of_ascii c - 32) else c.

Definition lower_char (c : ascii) : ascii :=
  if is_upper c then ascii_of_nat (nat_of_ascii c + 32) else c.

Fixpoint map_chars (f : ascii → ascii) (s : string) : string :=
  match s with
  | "" => ""
  | String c s' => String (f c) (map_chars f s')
  end.

(** [s.upper()] *)
Definition upper : string → string := map_chars upper_char.

(** [s.replace('_', ' ')] *)
Definition underscores_to_spaces : string → string :=
  map_chars (λ c, if Ascii.eqb c "_" then " "%char else c).

(** [s.title()]: a cased character is upper-cased when the character
    before it is not cased, and lower-cased otherwise. *)
Fixpoint title_go (prev_cased : bool) (s : string) : string :=
  match s with
  | "" => ""
  | String c s' =>
      String (if prev_cased then lower_char c else upper_char c)
             (title_go (is_cased c) s')
  end.

Definition title : string → string := title_go false.

Fixpoint lstrip (s : string) : string :=
  match s with
  | "" => ""
  | String c s' => if is_space c then lstrip s' else s
  end.

Definition rstrip (s : string) : string := String.rev (lstrip (String.rev s)).

(** [s.strip()] *)
Definition strip (s : string) : string := rstrip (lstrip s).

(** [m in s] *)
Fixpoint contains (m s : string) : bool :=
  String.prefix m s ||
  match s with
  | "" => false
  | String _ s' => contains m s'
  end.

(** [s.split(sep)[0]] for a non-empty separator: the text before the
    first occurrence of [sep], or all of [s] when [sep] does not occur. *)
Fixpoint split_head (sep s : string) : string :=
  if String.prefix sep s then ""
  else match s with
       | "" => ""
       | String c s' => String c (split_head sep s')
       end.

(** What is left of [s] after the prefix [p], if [p] is a prefix. *)
Fixpoint strip_prefix (p s : string) : option string :=
  match p, s with
  | "", _ => Some s
  | String a p', String b s' =>
      if Ascii.eqb a b then strip_prefix p' s' else None
  | String _ _, "" => None
  end.

Definition head_char (s : string) : option ascii :=
  match s with "" => None | String c _ => Some c end.

Fixpoint last_char (prev : option ascii) (s : string) : option ascii :=
  match s with "" => prev | String c s' => last_char (Some c) s' end.

Definition is_word_opt (c : option ascii) : bool :=
  match c with None => false | Some c => is_word c end.

(** The assertion [\b] between two neighbouring positions: exactly one
    side is a word character (the ends of the text count as non-word). *)
Definition boundary (before after : option ascii) : bool :=
  xorb (is_word_opt before) (is_word_opt after).

(** Does [\b lit \b] match with [lit] starting at the head of [s], the
    character before the head being [prev]? *)
Definition word_match_here (lit : string) (prev : option ascii) (s : string) : bool :=
  boundary prev (head_char s) &&
  match strip_prefix lit s with
  | Some rest => boundary (last_char prev lit) (head_char rest)
  | None => false
  end.

Fixpoint word_search_go (lit : string) (prev : option ascii) (s : string) : bool :=
  word_match_here lit prev s ||
  match s with
  | "" => false
  | String c s' => word_search_go lit (Some c) s'
  end.

(** [re.search(r'\b' + lit + r'\b', s) is not None] for a literal [lit]. *)
Definition word_search (lit s : string) : bool := word_search_go lit None s.

End Py.

(** ** [src/app.py] *)

(** [_is_practical_col(col_name)].  A header that is empty is rejected by
    the [not col_name] test; [pd.isna] is false on every string. *)
Definition _is_practical_col (col_name : string) : bool :=
  if String.eqb col_name "" then false
  else
    let col_upper := Py.upper col_name in
    if Py.contains "TW" col_upper && negb (Py.contains "PR" col_upper) then false
    else Py.contains "PRACTICAL" col_upper || Py.word_search "PR" col_upper.

(** [_get_max_marks_for_subject(subject_name, exam_type=None)]; a missing
    or empty [exam_type] is falsy. *)
Definition _get_max_marks_for_subject (subject_name : string) (exam_type : option string) : Z :=
  match exam_type with
  | None => 100
  | Some "" => 100
  | Some exam_type =>
      let exam_upper := Py.upper exam_type in
      if Py.contains "ESE" exam_upper then 60
      else if Py.contains "ISE" exam_upper || Py.contains "MSE" exam_upper then 25
      else if Py.contains "PRACTICAL" exam_upper || Py.contains "PR" exam_upper then 25
      else if Py.contains "TW" exam_upper then 50
      else 100
  end%Z.

(** The assessment types that the specification's lookup names. *)
Definition recognised_types : list string :=
  ["ESE"; "ISE"; "MSE"; "PRACTICAL"; "PR"; "TW"].

(** *** Cells, rows and tables *)

(** A cell of the uploaded sheet: a number, a missing value ([nan]),
    Python's [None], or text that [float()] does not accept. *)
Inductive cell :=
  | Num (q : Q)
  | NaN
  | PyNone
  | Text (s : string).

(** A Python float: a finite value or [nan]. *)
Inductive pyfloat :=
  | Fin (q : Q)
  | FNaN.

(** [float(v)]; [None] stands for the raised [ValueError]/[TypeError]. *)
Definition float (v : cell) : option pyfloat :=
  match v with
  | Num q => Some (Fin q)
  | NaN => Some FNaN
  | PyNone => None
  | Text _ => None
  end.

(** [pd.notna(v)] *)
Definition notna (v : cell) : bool :=
  match v with
  | NaN | PyNone => false
  | Num _ | Text _ => true
  end.

(** A row maps headers to cells; a header without an entry is a missing
    value, as in [row.get(c, np.nan)]. *)
Definition row_get (row : gmap string cell) (c : string) : cell :=
  default NaN (row !! c).

Record DataFrame := {
  columns : list string;
  rows : list (gmap string cell)
}.

Section RowPercentage.

(** [extract_max_marks_from_header] is imported from [services]; its
    definition is not part of the sources at hand, so the aggregation
    below takes it as a parameter. *)
Variable extract_max_marks_from_header : string → Q.

(** One iteration of the loop of [_row_percentage]; the accumulator is
    [(obtained_total, max_total)]. *)
Definition row_percentage_step (row : gmap string cell)
    (acc : Q * Q) (c : string) : Q * Q :=
  let val := row_get row c in
  let val := match float val with Some x => x | None => FNaN end in
  match val with
  | Fin v => (acc.1 + v, acc.2 + extract_max_marks_from_header c)%Q
  | FNaN => acc
  end.

(** [_row_percentage(row, cols)] *)
Definition _row_percentage (row : gmap string cell) (cols : list string) : pyfloat :=
  let '(obtained_total, max_total) :=
    foldl (row_percentage_step row) (0, 0)%Q cols in
  match (0 ?= max_total)%Q with
  | Lt => Fin ((obtained_total / max_total) * 100)%Q
  | _ => FNaN
  end.

End RowPercentage.

(** ** [src/services/subjects.py] *)

Definition exclude_cols : list string :=
  ["SR.No"; "Roll No"; "Name"; "Academic_Performance_%";
   "Previous_Performance_Analysis"; "Practical_%"; "Coding_Expertise";
   "Performance_Analysis"; "Category"].

(** The markers in the order in which [get_subject_list] tries them. *)
Definition assessments : list string :=
  ["ISE"; "MSE"; "ESE"; "PRACTICAL"; "TW"; "PR"].

(** The inner loop of [get_subject_list] over a list of markers: the first
    marker that occurs in the upper-cased header ends the loop ([break]);
    the result is [parts[0].strip()] when that is not empty. *)
Fixpoint subject_candidate_in (order : list string) (col_str : string) : option string :=
  match order with
  | [] => None
  | assessment :: order' =>
      if Py.contains assessment (Py.upper col_str) then
        let subject_name := Py.strip (Py.split_head assessment (Py.upper col_str)) in
        if String.eqb subject_name "" then None else Some subject_name
      else subject_candidate_in order' col_str
  end.

Definition subject_candidate : string → option string :=
  subject_candidate_in assessments.

(** The order of the markers as the specification words it; it is used
    only to compare it with [assessments]. *)
Definition claimed_order : list string :=
  ["ESE"; "ISE"; "MSE"; "PRACTICAL"; "TW"; "PR"].

(** [subject_name.replace('_', ' ').title()] *)
Definition normalise (subject_name : string) : string :=
  Py.title (Py.underscores_to_spaces subject_name).

(** The subject that one column adds to the set, if any. *)
Definition column_subject (col : string) : option string :=
  normalise <$> subject_candidate col.

Definition add_subject (subjects : gset string) (col : string) : gset string :=
  match column_subject col with
  | Some subject_name => {[subject_name]} ∪ subjects
  | None => subjects
  end.

(** The set built by the outer loop of [get_subject_list]. *)
Definition subject_set (df : DataFrame) : gset string :=
  let subject_cols := filter (λ col, col ∉ exclude_cols) (columns df) in
  foldl add_subject ∅ subject_cols.

(** [get_subject_list(df)]: [sorted(list(subjects))]. *)
Definition get_subject_list (df : DataFrame) : list string :=
  merge_sort String.le (elements (subject_set df)).

(** The column test of [get_subject_marks]. *)
Definition is_exam_col (subject_name col : string) : bool :=
  let col_upper := Py.upper col in
  let subject_upper := Py.upper subject_name in
  Py.contains subject_upper col_upper &&
  (Py.contains "MSE" col_upper || Py.contains "ESE" col_upper).

Definition exam_cols (df : DataFrame) (subject_name : string) : list string :=
  foldl (λ subject_cols col,
           if is_exam_col subject_name col then subject_cols ++ [col]
           else subject_cols)
        [] (columns df).

(** One iteration of the inner loop of [get_subject_marks], with
    [row[col]] read by [row_get]: a missing value adds [0], a number adds
    itself, and a value that [float()] rejects is skipped by the [except]
    clause.  The case [Some FNaN] is not reached, since a cell that passes
    [notna] and converts is a number. *)
Definition add_marks (row : gmap string cell) (total_marks : Q) (col : string) : Q :=
  let v := row_get row col in
  if notna v then
    match float v with
    | Some (Fin marks) => (total_marks + marks)%Q
    | Some FNaN => total_marks
    | None => total_marks
    end
  else (total_marks + 0)%Q.

(** [get_subject_marks(df, subject_name)]; [None] is Python's [None]. *)
Definition get_subject_marks (df : DataFrame) (subject_name : string) : option (list Q) :=
  let subject_cols := exam_cols df subject_name in
  match subject_cols with
  | [] => None
  | _ =>
      Some (foldl (λ marks_data row,
                     marks_data ++ [foldl (add_marks row) 0%Q subject_cols])
                  [] (rows df))
  end.

(** *** Summary statistics *)

Definition Qsum (l : list Q) : Q := foldr Qplus 0%Q l.

(** [np.mean] of a non-empty list. *)
Definition np_mean (l : list Q) : Q := (Qsum l / inject_Z (Z.of_nat (length l)))%Q.

(** [np.max] and [np.min] of [x :: l]. *)
Definition np_max (x : Q) (l : list Q) : Q := foldl Qmax x l.
Definition np_min (x : Q) (l : list Q) : Q := foldl Qmin x l.

(** The population variance: the mean of the squared deviations. *)
Definition np_var (l : list Q) : Q :=
  np_mean ((λ x, (x - np_mean l) * (x - np_mean l))%Q <$> l).

(** [np.std]: the square root of the population variance, as a real. *)
Definition np_std (l : list Q) : R := sqrt (Q2R (np_var l)).

Record summary := {
  total_marks : list Q;
  average_marks : Q;
  max_marks : Q;
  min_marks : Q;
  std_marks : R
}.

Inductive outcome (A : Type) :=
  | Returns (a : A)
  | Raises.
Arguments Returns {A} a.
Arguments Raises {A}.

Definition summarise (x : Q) (l : list Q) : summary :=
  {| total_marks := x :: l;
     average_marks := np_mean (x :: l);
     max_marks := np_max x l;
     min_marks := np_min x l;
     std_marks := np_std (x :: l) |}.

(** [get_subject_marks_summary(df, subject_name)].  [np.max] raises on an
    empty list of marks (a table without rows). *)
Definition get_subject_marks_summary (df : DataFrame) (subject_name : string)
    : outcome (option summary) :=
  match get_subject_marks df subject_name with
  | None => Returns None
  | Some [] => Raises
  | Some (x :: l) => Returns (Some (summarise x l))
  end.

(** *** Exam types of a subject *)

(** The [if]/[elif] chain of [get_subject_exam_types] on an upper-cased
    header: the type that the column adds, if any. *)
Definition exam_type_of (col_upper : string) : option string :=
  if Py.contains "ESE" col_upper then Some "ESE"
  else if Py.contains "ISE" col_upper then Some "ISE"
  else if Py.contains "MSE" col_upper then Some "MSE"
  else if Py.contains "PRACTICAL" col_upper || Py.contains "PR" col_upper
       then Some "PRACTICAL"
  else if Py.contains "TW" col_upper then Some "TW"
  else None.

(** One iteration of the loop of [get_subject_exam_types]. *)
Definition add_exam_type (subject_name : string)
    (exam_types : gset string) (col : string) : gset string :=
  let col_upper := Py.upper col in
  let subject_upper := Py.upper subject_name in
  if Py.contains subject_upper col_upper then
    match exam_type_of col_upper with
    | Some exam_type => {[exam_type]} ∪ exam_types
    | None => exam_types
    end
  else exam_types.

Definition exam_type_set (df : DataFrame) (subject_name : string) : gset string :=
  foldl (add_exam_type subject_name) ∅ (columns df).

(** [get_subject_exam_types(df, subject_name)]: [sorted(list(exam_types))]. *)
Definition get_subject_exam_types (df : DataFrame) (subject_name : string) : list string :=
  merge_sort String.le (elements (exam_type_set df subject_name)).

(** ** The pages of [src/app.py] that use the subject helpers *)

(** The truth value of [subject_marks] in [if subject_marks:]: [None] and
    the empty list are falsy. *)
Definition truthy (subject_marks : option (list Q)) : bool :=
  match subject_marks with
  | Some (_ :: _) => true
  | Some [] | None => false
  end.

Definition exclude_words : list string :=
  ["ACADEMIC"; "PERFORMANCE"; "CODING"; "EXPERTISE"; "CATEGORY"].

(** The column test of the subject page:
    [col_upper.startswith(subject_upper) or subject_upper in col_upper],
    and then [not any(word in col_upper for word in exclude_words)]. *)
Definition is_subject_page_col (selected_subject col : string) : bool :=
  let col_upper := Py.upper col in
  let subject_upper := Py.upper selected_subject in
  (String.prefix subject_upper col_upper || Py.contains subject_upper col_upper) &&
  negb (existsb (λ word, Py.contains word col_upper) exclude_words).

(** The list [subject_cols] that the subject page builds. *)
Definition subject_page_cols (df : DataFrame) (selected_subject : string) : list string :=
  foldl (λ subject_cols col,
           if is_subject_page_col selected_subject col then subject_cols ++ [col]
           else subject_cols)
        [] (columns df).

(** The subject difficulty analysis of the insights page. *)
Inductive difficulty :=
  | Easy
  | Moderate
  | Difficult.

Definition Qlt_bool (x y : Q) : bool :=
  match (x ?= y)%Q with Lt => true | _ => false end.

Definition max_possible_marks : Q := 85.

(** [(np.array(subject_marks) < (max_possible_marks * 0.4)).sum()
     / len(subject_marks) * 100] *)
Definition fail_rate (subject_marks : list Q) : Q :=
  (inject_Z (Z.of_nat (length
     (filter (λ m, Qlt_bool m (max_possible_marks * (4 # 10))) subject_marks)))
   / inject_Z (Z.of_nat (length subject_marks)) * 100)%Q.

(** ["Easy" if avg_marks >= 60 else "Moderate" if avg_marks >= 40 else
    "Difficult"] *)
Definition difficulty_level (avg_marks : Q) : difficulty :=
  if Qle_bool 60 avg_marks then Easy
  else if Qle_bool 40 avg_marks then Moderate
  else Difficult.

(** The values computed for one subject, before they are rounded for
    display: [(avg_marks, fail_rate, difficulty_level)], or nothing when
    [subject_marks] is falsy. *)
Definition subject_difficulty_entry (subject_marks : option (list Q))
    : option (Q * Q * difficulty) :=
  if truthy subject_marks then
    let marks := default [] subject_marks in
    let avg_marks := np_mean marks in
    Some (avg_marks, fail_rate marks, difficulty_level avg_marks)
  else None.

(** ** Reference notions used in the statements *)

(** The contribution of a cell to a sum of marks: its value when it is a
    number, zero otherwise. *)
Definition numeric_value (v : cell) : Q :=
  match v with
  | Num q => q
  | NaN | PyNone | Text _ => 0%Q
  end.

Definition is_numeric (v : cell) : bool :=
  match v with
  | Num _ => true
  | NaN | PyNone | Text _ => false
  end.

(** The percentage as the specification words it: the obtained values
    over the maxima of all the listed columns. *)
Definition claimed_row_percentage (max_of : string → Q)
    (row : gmap string cell) (cols : list string) : Q :=
  (Qsum ((λ c, numeric_value (row_get row c)) <$> cols)
   / Qsum (max_of <$> cols) * 100)%Q.

(** A maximum for each header, from the marker the header carries; it
    serves as an instance of [extract_max_marks_from_header] in examples. *)
Definition header_max (col : string) : Q :=
  inject_Z (_get_max_marks_for_subject col (Some col)).

(** ** Example tables *)

Definition mk_row (cells : list (string * cell)) : gmap string cell :=
  list_to_map cells.

Definition num (z : Z) : cell := Num (inject_Z z).

(** The two-student table of the specification's scenario. *)
Definition scenario_cols : list string :=
  ["MATHS MSE"; "MATHS ESE"; "DBMS PRACTICAL"].

Definition scenario_row1 : gmap string cell :=
  mk_row [("SR.No", num 1); ("Name", Text "A"); ("MATHS MSE", num 20);
          ("MATHS ESE", num 45); ("DBMS PRACTICAL", num 20)].

(** A row whose ESE mark is missing. *)
Definition absent_row : gmap string cell :=
  mk_row [("MATHS MSE", num 20); ("MATHS ESE", NaN)].

(** A table whose MSE+ESE totals are 70, 40 and 85. *)
Definition three_students : DataFrame :=
  {| columns := ["Name"; "MATHS MSE"; "MATHS ESE"; "MATHS TW"];
     rows :=
       [ mk_row [("Name", Text "A"); ("MATHS MSE", num 20); ("MATHS ESE", num 50);
                 ("MATHS TW", num 40)];
         mk_row [("Name", Text "B"); ("MATHS MSE", num 10); ("MATHS ESE", num 30);
                 ("MATHS TW", num 35)];
         mk_row [("Name", Text "C"); ("MATHS MSE", num 25); ("MATHS ESE", num 60);
                 ("MATHS TW", NaN)] ] |}.

Definition scenario : DataFrame :=
  {| columns := ["SR.No"; "Name"; "MATHS MSE"; "MATHS ESE"; "DBMS PRACTICAL"];
     rows :=
       [ scenario_row1;
         mk_row [("SR.No", num 2); ("Name", Text "B"); ("MATHS MSE", num 10);
                 ("MATHS ESE", num 30); ("DBMS PRACTICAL", num 15)] ] |}.

(** * Properties *)

(** ** Facts about the string built-ins *)

Section StringFacts.

Lemma is_word_upper_char c : Py.is_word (Py.upper_char c) = Py.is_word c.
Proof. destruct c as [[] [] [] [] [] [] [] []]; reflexivity. Qed.

Lemma prefix_cons a m b s :
  String.prefix (String a m) (String b s) = true ↔ a = b ∧ String.prefix m s = true.
Proof.
  simpl. destruct (ascii_dec a b) as [->|Hne].
  - tauto.
  - split; [discriminate | intros [? _]; contradiction].
Qed.

Lemma prefix_app m s :
  String.prefix m s = true ↔ ∃ post, s = m +:+ post.
Proof.
  revert s. induction m as [|a m IH]; intros s.
  - destruct s; simpl; split; eauto.
  - destruct s as [|b s].
    + simpl. split; [discriminate | intros [post Hp]; discriminate].
    + rewrite prefix_cons, IH. split.
      * intros [-> [post ->]]. by exists post.
      * intros [post Hp]. simpl in Hp. injection Hp as -> ->. eauto.
Qed.

Lemma map_chars_app f s t :
  Py.map_chars f (s +:+ t) = Py.map_chars f s +:+ Py.map_chars f t.
Proof. induction s as [|c s IH]; simpl; [done | by rewrite IH]. Qed.

Lemma prefix_upper m s :
  String.prefix m s = true →
  String.prefix (Py.upper m) (Py.upper s) = true.
Proof.
  rewrite !prefix_app. intros [post ->].
  exists (Py.upper post). apply map_chars_app.
Qed.

Lemma contains_nil m : Py.contains m "" = String.prefix m "".
Proof. simpl. apply orb_false_r. Qed.

Lemma contains_cons m c s :
  Py.contains m (String c s) = String.prefix m (String c s) || Py.contains m s.
Proof. reflexivity. Qed.

Lemma contains_app m s :
  Py.contains m s = true ↔ ∃ pre post, s = pre +:+ m +:+ post.
Proof.
  induction s as [|c s IH].
  - rewrite contains_nil, prefix_app. split.
    + intros [post Hp]. by exists "", post.
    + intros (pre & post & Hp). destruct pre; [by exists post|discriminate].
  - rewrite contains_cons, orb_true_iff, prefix_app, IH. split.
    + intros [[post Hp]|(pre & post & ->)].
      * by exists "", post.
      * by exists (String c pre), post.
    + intros (pre & post & Hp). destruct pre as [|c' pre]; simpl in Hp.
      * left. by exists post.
      * right. injection Hp as -> ->. by exists pre, post.
Qed.

Lemma append_cons c (s t : string) : String c s +:+ t = String c (s +:+ t).
Proof. reflexivity. Qed.

Lemma string_app_assoc (s t u : string) : (s +:+ t) +:+ u = s +:+ t +:+ u.
Proof. induction s as [|c s IH]; [done | by rewrite !append_cons, IH]. Qed.

Lemma contains_upper m s :
  Py.contains m s = true → Py.contains (Py.upper m) (Py.upper s) = true.
Proof.
  rewrite !contains_app. intros (pre & post & ->).
  exists (Py.upper pre), (Py.upper post).
  unfold Py.upper. by rewrite !map_chars_app.
Qed.

(** A text that contains [m1 +:+ m2] contains [m1]. *)
Lemma contains_app_l m1 m2 s :
  Py.contains (m1 +:+ m2) s = true → Py.contains m1 s = true.
Proof.
  rewrite !contains_app. intros (pre & post & ->).
  exists pre, (m2 +:+ post). by rewrite string_app_assoc.
Qed.

Lemma contains_nonempty c m s :
  Py.contains (String c m) s = true → s ≠ "".
Proof. intros H ->. discriminate. Qed.

Lemma strip_prefix_prefix lit s rest :
  Py.strip_prefix lit s = Some rest → String.prefix lit s = true.
Proof.
  revert s. induction lit as [|a lit IH]; intros [|b s]; simpl; try done.
  destruct (Ascii.eqb_spec a b) as [->|]; [|done].
  intros H. destruct (ascii_dec b b); [eauto | done].
Qed.

Lemma strip_prefix_upper lit s rest :
  Py.strip_prefix lit s = Some rest →
  Py.strip_prefix (Py.upper lit) (Py.upper s) = Some (Py.upper rest).
Proof.
  revert s. induction lit as [|a lit IH]; intros [|b s]; simpl; try done.
  - by intros [= <-].
  - by intros [= <-].
  - destruct (Ascii.eqb_spec a b) as [->|]; [|done].
    rewrite Ascii.eqb_refl. apply IH.
Qed.

Lemma head_char_upper s :
  Py.head_char (Py.upper s) = Py.upper_char <$> Py.head_char s.
Proof. by destruct s. Qed.

Lemma last_char_upper prev lit :
  Py.last_char (Py.upper_char <$> prev) (Py.upper lit)
  = Py.upper_char <$> Py.last_char prev lit.
Proof.
  revert prev. induction lit as [|a lit IH]; intros prev; simpl; [done|].
  apply (IH (Some a)).
Qed.

Lemma is_word_opt_upper o :
  Py.is_word_opt (Py.upper_char <$> o) = Py.is_word_opt o.
Proof. destruct o; simpl; [apply is_word_upper_char | done]. Qed.

Lemma word_match_here_upper lit prev s :
  Py.word_match_here lit prev s = true →
  Py.word_match_here (Py.upper lit) (Py.upper_char <$> prev) (Py.upper s) = true.
Proof.
  unfold Py.word_match_here, Py.boundary.
  destruct (Py.strip_prefix lit s) as [rest|] eqn:Hrest;
    [|by rewrite andb_false_r].
  rewrite (strip_prefix_upper _ _ _ Hrest).
  by rewrite !head_char_upper, last_char_upper, !is_word_opt_upper.
Qed.

Lemma word_search_go_upper lit prev s :
  Py.word_search_go lit prev s = true →
  Py.word_search_go (Py.upper lit) (Py.upper_char <$> prev) (Py.upper s) = true.
Proof.
  revert prev. induction s as [|c s IH]; intros prev;
    cbn [Py.word_search_go Py.upper Py.map_chars]; rewrite !orb_true_iff.
  - intros [H|]; [|done]. left. by apply (word_match_here_upper lit prev "").
  - intros [H|H].
    + left. by apply (word_match_here_upper lit prev (String c s)).
    + right. by apply (IH (Some c)).
Qed.

(** A match of [\b lit \b] is in particular an occurrence of [lit]. *)
Lemma word_search_go_contains lit prev s :
  Py.word_search_go lit prev s = true → Py.contains lit s = true.
Proof.
  revert prev. induction s as [|c s IH]; intros prev;
    cbn [Py.word_search_go]; [rewrite contains_nil|rewrite contains_cons];
    rewrite !orb_true_iff; unfold Py.word_match_here.
  - intros [H|]; [|done].
    destruct (Py.strip_prefix lit "") eqn:E; [|by rewrite andb_false_r in H].
    by apply strip_prefix_prefix in E.
  - intros [H|H].
    + left.
      destruct (Py.strip_prefix lit (String c s)) eqn:E;
        [|by rewrite andb_false_r in H].
      by apply strip_prefix_prefix in E.
    + right. eauto.
Qed.

Lemma split_head_nil sep : Py.split_head sep "" = "".
Proof. by destruct sep. Qed.

Lemma split_head_cons sep c s :
  Py.split_head sep (String c s)
  = if String.prefix sep (String c s) then ""
    else String c (Py.split_head sep s).
Proof. reflexivity. Qed.

Lemma split_head_occurrence sep s :
  Py.contains sep s = true →
  ∃ post, s = Py.split_head sep s +:+ sep +:+ post.
Proof.
  induction s as [|c s IH].
  - rewrite contains_nil, split_head_nil. intros H. by apply prefix_app in H.
  - rewrite contains_cons, split_head_cons.
    destruct (String.prefix sep (String c s)) eqn:Hp.
    + intros _. by apply prefix_app in Hp.
    + rewrite orb_false_l. intros H. destruct (IH H) as [post Hpost].
      exists post. rewrite append_cons. by f_equal.
Qed.

(** [split_head] stops at the first occurrence. *)
Lemma split_head_first sep s pre post :
  s = pre +:+ sep +:+ post →
  (String.length (Py.split_head sep s) ≤ String.length pre).
Proof.
  revert pre. induction s as [|c s IH]; intros pre Hs.
  - rewrite split_head_nil. simpl. lia.
  - rewrite split_head_cons.
    destruct (String.prefix sep (String c s)) eqn:Hp; simpl; [lia|].
    destruct pre as [|c' pre]; simpl in Hs.
    + assert (String.prefix sep (String c s) = true) as Hp'
        by (apply prefix_app; eauto).
      congruence.
    + injection Hs as -> ->. simpl. apply le_n_S. by apply IH.
Qed.

Lemma split_head_absent sep s :
  Py.contains sep s = false → Py.split_head sep s = s.
Proof.
  induction s as [|c s IH].
  - by rewrite split_head_nil.
  - rewrite contains_cons, split_head_cons, orb_false_iff.
    intros [-> H]. by rewrite IH.
Qed.

End StringFacts.

(** The built-ins on a few inputs. *)
Example py_builtins :
  Py.upper "Maths_2 mse" = "MATHS_2 MSE" ∧
  Py.title "data structures" = "Data Structures" ∧
  Py.title "OS-2 LAB" = "Os-2 Lab" ∧
  Py.strip "  MATHS _ " = "MATHS _" ∧
  Py.split_head "ESE" "MATHS ESE ESE" = "MATHS " ∧
  Py.split_head "ESE" "MATHS" = "MATHS" ∧
  Py.contains "PR" "PRODUCT" = true ∧
  Py.word_search "PR" "PRODUCT" = false ∧
  Py.word_search "PR" "OS_PR" = false ∧
  Py.word_search "PR" "OS-PR(25)" = true.
Proof. repeat split; reflexivity. Qed.

(** ** The practical-column predicate *)

Lemma is_practical_col_upper (H : string) :
  _is_practical_col H = true ↔
  Py.contains "PRACTICAL" (Py.upper H) = true ∨
  Py.word_search "PR" (Py.upper H) = true.
Proof.
  unfold _is_practical_col. split.
  - destruct (String.eqb H ""); [done|].
    destruct (_ && _); [done|]. by rewrite orb_true_iff.
  - intros Hor.
    assert (Py.contains "PR" (Py.upper H) = true) as Hpr.
    { destruct Hor as [Hp|Hw].
      - by apply (contains_app_l "PR" "ACTICAL").
      - by apply word_search_go_contains in Hw. }
    destruct (String.eqb_spec H "") as [->|_]; [done|].
    rewrite Hpr, andb_false_r. by apply orb_true_iff.
Qed.

(** C1: the tests of [_is_practical_col] are made on the upper-cased
    header.  [_is_practical_col H] is true if [H] (as written, or in upper
    case) contains ["PRACTICAL"] or contains ["PR"] as a token between word
    boundaries, and indeed exactly then; it is false whenever [H], in upper
    case, contains ["TW"] without containing ["PR"].  On the three headers
    of the specification it gives false, true and true. *)
Theorem C1_is_practical_col (H : string) :
  (Py.contains "PRACTICAL" H = true ∨ Py.word_search "PR" H = true →
   _is_practical_col H = true) ∧
  (Py.contains "TW" (Py.upper H) = true ∧ Py.contains "PR" (Py.upper H) = false →
   _is_practical_col H = false) ∧
  (_is_practical_col H = true ↔
   Py.contains "PRACTICAL" (Py.upper H) = true ∨
   Py.word_search "PR" (Py.upper H) = true) ∧
  _is_practical_col "DBMS TW" = false ∧
  _is_practical_col "DBMS PRACTICAL" = true ∧
  _is_practical_col "DBMS PR" = true.
Proof.
  split; [|split; [|split; [apply is_practical_col_upper | done]]].
  - intros Hor. apply is_practical_col_upper. destruct Hor as [Hp|Hw].
    + left. by apply (contains_upper "PRACTICAL").
    + right. by apply (word_search_go_upper "PR" None).
  - intros [Htw Hpr]. unfold _is_practical_col.
    rewrite Htw, Hpr. by destruct (String.eqb H "").
Qed.

Lemma C1_is_practical_col_witness :
  _is_practical_col "OS PR 2" = true ∧ _is_practical_col "os tw" = false.
Proof.
  split.
  - apply (proj1 (C1_is_practical_col "OS PR 2")). right. reflexivity.
  - apply (proj1 (proj2 (C1_is_practical_col "os tw"))). split; reflexivity.
Defined.

(** ** Maximum marks of an assessment type *)

(** C4, as stated, fails: the exam type is matched by substring, not
    looked up by name, so a type that is none of the names of the lookup
    gets the maximum of a marker that occurs inside it: ["PROJECT"]
    contains ["PR"] and gets 25, ["NETWORK"] contains ["TW"] and gets 50,
    ["RESEARCH"] contains ["ESE"] and gets 60, none of them 100. *)
Lemma C4_counterexample :
  ("PROJECT" ∉ recognised_types) ∧
  _get_max_marks_for_subject "Maths" (Some "PROJECT") = 25%Z ∧
  ("NETWORK" ∉ recognised_types) ∧
  _get_max_marks_for_subject "Maths" (Some "NETWORK") = 50%Z ∧
  ("RESEARCH" ∉ recognised_types) ∧
  _get_max_marks_for_subject "Maths" (Some "RESEARCH") = 60%Z ∧
  ¬ (∀ exam_type : string,
       exam_type ∉ recognised_types →
       _get_max_marks_for_subject "Maths" (Some exam_type) = 100%Z).
Proof.
  assert (∀ t, t ∈ recognised_types →
               t = "ESE" ∨ t = "ISE" ∨ t = "MSE" ∨ t = "PRACTICAL" ∨
               t = "PR" ∨ t = "TW") as Hnames.
  { intros t Ht. unfold recognised_types in Ht.
    repeat (apply elem_of_cons in Ht as [->|Ht]; [tauto|]).
    by apply elem_of_nil in Ht. }
  assert ("PROJECT" ∉ recognised_types) as Hproject.
  { intros Hin. apply Hnames in Hin. by repeat destruct Hin as [Hin|Hin]. }
  repeat split; try done.
  - intros Hin. apply Hnames in Hin. by repeat destruct Hin as [Hin|Hin].
  - intros Hin. apply Hnames in Hin. by repeat destruct Hin as [Hin|Hin].
  - intros Hall. by specialize (Hall "PROJECT" Hproject).
Qed.

(** C4 (amended): [_get_max_marks_for_subject] matches the upper-cased
    exam type by substring, in the order ESE, then ISE or MSE, then
    PRACTICAL or PR, then TW: a type that contains ["ESE"] gets 60;
    otherwise one that contains ["ISE"] or ["MSE"] gets 25; otherwise one
    that contains ["PR"] gets 25; otherwise one that contains ["TW"] gets
    50; and a type that contains none of these markers, an empty type and
    a call without type get 100.  So ESE gives 60, MSE, ISE and PRACTICAL
    give 25, TW gives 50 and UNKNOWN gives 100. *)
Theorem C4_max_marks (subject_name : string) :
  _get_max_marks_for_subject subject_name (Some "ESE") = 60%Z ∧
  _get_max_marks_for_subject subject_name (Some "MSE") = 25%Z ∧
  _get_max_marks_for_subject subject_name (Some "ISE") = 25%Z ∧
  _get_max_marks_for_subject subject_name (Some "TW") = 50%Z ∧
  _get_max_marks_for_subject subject_name (Some "PRACTICAL") = 25%Z ∧
  _get_max_marks_for_subject subject_name (Some "PR") = 25%Z ∧
  _get_max_marks_for_subject subject_name (Some "UNKNOWN") = 100%Z ∧
  _get_max_marks_for_subject subject_name None = 100%Z ∧
  _get_max_marks_for_subject subject_name (Some "") = 100%Z ∧
  (∀ exam_type : string,
     Forall (λ m, Py.contains m (Py.upper exam_type) = false)
            ["ESE"; "ISE"; "MSE"; "PRACTICAL"; "PR"; "TW"] →
     _get_max_marks_for_subject subject_name (Some exam_type) = 100%Z) ∧
  (∀ exam_type : string,
     let has m := Py.contains m (Py.upper exam_type) in
     (has "ESE" = true →
      _get_max_marks_for_subject subject_name (Some exam_type) = 60%Z) ∧
     (has "ESE" = false → has "ISE" = true ∨ has "MSE" = true →
      _get_max_marks_for_subject subject_name (Some exam_type) = 25%Z) ∧
     (has "ESE" = false → has "ISE" = false → has "MSE" = false →
      has "PR" = true →
      _get_max_marks_for_subject subject_name (Some exam_type) = 25%Z) ∧
     (has "ESE" = false → has "ISE" = false → has "MSE" = false →
      has "PR" = false → has "TW" = true →
      _get_max_marks_for_subject subject_name (Some exam_type) = 50%Z) ∧
     (has "ESE" = false → has "ISE" = false → has "MSE" = false →
      has "PR" = false → has "TW" = false →
      _get_max_marks_for_subject subject_name (Some exam_type) = 100%Z)).
Proof.
  repeat (split; [reflexivity|]). split.
  - intros exam_type Hall.
    repeat (apply Forall_cons in Hall as [? Hall]).
    destruct exam_type as [|c t]; [reflexivity|].
    unfold _get_max_marks_for_subject.
    by repeat match goal with
              | H : Py.contains _ _ = false |- _ => rewrite H; clear H
              end.
  - intros exam_type has. unfold has. clear has.
    assert (Py.contains "PRACTICAL" (Py.upper exam_type) = true →
            Py.contains "PR" (Py.upper exam_type) = true) as Hp
      by apply (contains_app_l "PR" "ACTICAL").
    destruct exam_type as [|c t].
    { repeat split; intros; try reflexivity; try discriminate.
      by match goal with H : _ ∨ _ |- _ => destruct H end. }
    unfold _get_max_marks_for_subject.
    destruct (Py.contains "ESE" (Py.upper (String c t))),
             (Py.contains "ISE" (Py.upper (String c t))),
             (Py.contains "MSE" (Py.upper (String c t))),
             (Py.contains "PR" (Py.upper (String c t))),
             (Py.contains "TW" (Py.upper (String c t))),
             (Py.contains "PRACTICAL" (Py.upper (String c t)));
      repeat split; intros; simpl; try done;
      try (by match goal with H : _ ∨ _ |- _ => destruct H end);
      by specialize (Hp eq_refl).
Qed.

Lemma C4_max_marks_witness :
  _get_max_marks_for_subject "Maths" (Some "Viva") = 100%Z ∧
  _get_max_marks_for_subject "Maths" (Some "Project") = 25%Z.
Proof.
  split.
  - apply (proj1 (proj2 (proj2 (proj2 (proj2 (proj2 (proj2 (proj2 (proj2 (proj2
             (C4_max_marks "Maths"))))))))))).
    repeat constructor.
  - apply (proj2 (proj2 (proj2 (proj2 (proj2 (proj2 (proj2 (proj2 (proj2 (proj2
             (C4_max_marks "Maths")))))))))) "Project");
      reflexivity.
Defined.

(** ** Classification of a header *)

Lemma subject_candidate_in_none order col :
  Forall (λ m, Py.contains m (Py.upper col) = false) order →
  subject_candidate_in order col = None.
Proof.
  induction 1 as [|m order Hm _ IH]; simpl; [done|]. by rewrite Hm.
Qed.

(** The loop stops at the first marker of [order] that occurs. *)
Lemma subject_candidate_in_first order col (i : nat) m :
  order !! i = Some m →
  Py.contains m (Py.upper col) = true →
  (∀ (j : nat) m', (j < i) → order !! j = Some m' →
                   Py.contains m' (Py.upper col) = false) →
  subject_candidate_in order col =
    let subject_name := Py.strip (Py.split_head m (Py.upper col)) in
    if String.eqb subject_name "" then None else Some subject_name.
Proof.
  revert i. induction order as [|m0 order IH]; intros i Hi Hm Hbefore; [done|].
  destruct i as [|i]; simpl in Hi.
  - injection Hi as ->. simpl. by rewrite Hm.
  - simpl. rewrite (Hbefore 0 m0); [|lia|done].
    apply (IH i); [done..|].
    intros j m' Hj Hlook. apply (Hbefore (S j) m'); [lia|done].
Qed.

(** C2, as stated, fails: in ["DBMS ESE ISE"] both ["ISE"] and ["ESE"]
    occur, and the header is split on ["ISE"], which the code tries
    first, giving the candidate ["DBMS ESE"]; the order of the claim would
    split on ["ESE"] and give ["DBMS"]. *)
Lemma C2_counterexample :
  Py.contains "ISE" (Py.upper "DBMS ESE ISE") = true ∧
  Py.contains "ESE" (Py.upper "DBMS ESE ISE") = true ∧
  subject_candidate "DBMS ESE ISE" = Some "DBMS ESE" ∧
  subject_candidate_in claimed_order "DBMS ESE ISE" = Some "DBMS" ∧
  subject_candidate "DBMS ESE ISE" ≠ subject_candidate_in claimed_order "DBMS ESE ISE".
Proof. repeat split; [reflexivity..|discriminate]. Qed.

(** C2 (amended): the classifier upper-cases the header and tries the
    markers in the order ISE, MSE, ESE, PRACTICAL, TW, PR.  When none
    occurs there is no candidate.  Otherwise the first marker [m] of that
    order that occurs splits the upper-cased header at its first
    occurrence, and the trimmed text before it, when not empty, is the
    subject-name candidate; a header in which both ["ISE"] and ["ESE"]
    occur is split on ["ISE"]. *)
Theorem C2_marker_precedence (col : string) :
  assessments = ["ISE"; "MSE"; "ESE"; "PRACTICAL"; "TW"; "PR"] ∧
  (Forall (λ m, Py.contains m (Py.upper col) = false) assessments →
   subject_candidate col = None) ∧
  (∀ (i : nat) (m : string),
     assessments !! i = Some m →
     Py.contains m (Py.upper col) = true →
     (∀ (j : nat) m', (j < i) → assessments !! j = Some m' →
                      Py.contains m' (Py.upper col) = false) →
     ∃ pre post,
       Py.upper col = pre +:+ m +:+ post ∧
       (∀ pre' post', Py.upper col = pre' +:+ m +:+ post' →
                      (String.length pre ≤ String.length pre')) ∧
       subject_candidate col =
         (if String.eqb (Py.strip pre) "" then None else Some (Py.strip pre))) ∧
  (Py.contains "ISE" (Py.upper col) = true →
   Py.contains "ESE" (Py.upper col) = true →
   subject_candidate col =
     (let pre := Py.strip (Py.split_head "ISE" (Py.upper col)) in
      if String.eqb pre "" then None else Some pre)).
Proof.
  split; [done|]. split; [apply subject_candidate_in_none|]. split.
  - intros i m Hi Hm Hbefore.
    destruct (split_head_occurrence _ _ Hm) as [post Hpost].
    exists (Py.split_head m (Py.upper col)), post. split; [done|]. split.
    + intros pre' post' Hsplit. by eapply split_head_first.
    + by apply (subject_candidate_in_first assessments col i m).
  - intros Hise _.
    apply (subject_candidate_in_first assessments col 0 "ISE"); [done..|].
    intros j m' Hj. lia.
Qed.

Lemma C2_marker_precedence_witness :
  ∃ pre post,
    Py.upper "Maths mse" = pre +:+ "MSE" +:+ post ∧
    (∀ pre' post', Py.upper "Maths mse" = pre' +:+ "MSE" +:+ post' →
                   (String.length pre ≤ String.length pre')) ∧
    subject_candidate "Maths mse" =
      (if String.eqb (Py.strip pre) "" then None else Some (Py.strip pre)).
Proof.
  apply (proj1 (proj2 (proj2 (C2_marker_precedence "Maths mse"))) 1 "MSE").
  - reflexivity.
  - reflexivity.
  - intros j m' Hj Hlook.
    destruct j as [|j]; [|lia]. injection Hlook as <-. reflexivity.
Defined.

(** ** The subject list *)

Lemma elem_of_foldl_add_subject (s : string) (cols : list string) (X : gset string) :
  s ∈ foldl add_subject X cols ↔
  s ∈ X ∨ ∃ col, col ∈ cols ∧ column_subject col = Some s.
Proof.
  revert X. induction cols as [|col cols IH]; intros X; simpl.
  - split; [by left|]. intros [?|(col & Hcol & _)]; [done|]. by inversion Hcol.
  - rewrite IH. unfold add_subject at 1. split.
    + intros [Hs|(col' & Hcol' & Hsub)].
      * destruct (column_subject col) as [s'|] eqn:Hcs; [|by left].
        apply elem_of_union in Hs as [Hs|Hs]; [|by left].
        apply elem_of_singleton in Hs as ->.
        right. exists col. split; [left|done].
      * right. exists col'. split; [by right|done].
    + intros [Hs|(col' & Hcol' & Hsub)].
      * left. destruct (column_subject col); [|done].
        apply elem_of_union. by right.
      * apply elem_of_cons in Hcol' as [->|Hcol'].
        -- left. rewrite Hsub. apply elem_of_union. left. by apply elem_of_singleton.
        -- right. by exists col'.
Qed.

Lemma elem_of_subject_set (s : string) (df : DataFrame) :
  s ∈ subject_set df ↔
  ∃ col, col ∈ columns df ∧ (col ∉ exclude_cols) ∧ column_subject col = Some s.
Proof.
  unfold subject_set. rewrite elem_of_foldl_add_subject. split.
  - intros [Hs|(col & Hcol & Hsub)]; [by apply not_elem_of_empty in Hs|].
    apply list_elem_of_filter in Hcol as [Hex Hcol]. by exists col.
  - intros (col & Hcol & Hex & Hsub). right. exists col.
    split; [|done]. by apply list_elem_of_filter.
Qed.

Lemma elem_of_get_subject_list (s : string) (df : DataFrame) :
  s ∈ get_subject_list df ↔ s ∈ subject_set df.
Proof.
  unfold get_subject_list. by rewrite merge_sort_Permutation, elem_of_elements.
Qed.

Lemma subject_set_Permutation (df df' : DataFrame) :
  columns df' ≡ₚ columns df → subject_set df' = subject_set df.
Proof.
  intros Hperm. apply set_eq. intros s. rewrite !elem_of_subject_set.
  by setoid_rewrite Hperm.
Qed.

(** C9: [get_subject_list] is a function of the table's columns, its
    result has no duplicates and is sorted in the lexicographic order of
    strings, and it is the only such listing of the subject set; a
    permutation of the columns gives the same subject set and the same
    list. *)
Theorem C9_subject_list (df : DataFrame) :
  NoDup (get_subject_list df) ∧
  StronglySorted String.le (get_subject_list df) ∧
  (∀ l : list string,
     NoDup l → StronglySorted String.le l →
     (∀ s, s ∈ l ↔ s ∈ subject_set df) →
     l = get_subject_list df) ∧
  (∀ df' : DataFrame,
     columns df' ≡ₚ columns df →
     subject_set df' = subject_set df ∧
     get_subject_list df' = get_subject_list df).
Proof.
  assert (NoDup (get_subject_list df)) as Hnd.
  { unfold get_subject_list. rewrite merge_sort_Permutation. apply NoDup_elements. }
  assert (StronglySorted String.le (get_subject_list df)) as Hsorted.
  { apply (StronglySorted_merge_sort _). }
  split; [done|]. split; [done|]. split.
  - intros l Hl Hls Hmem.
    apply (StronglySorted_unique String.le); [done..|].
    apply NoDup_Permutation; [done..|].
    intros s. by rewrite Hmem, elem_of_get_subject_list.
  - intros df' Hperm.
    pose proof (subject_set_Permutation df df' Hperm) as Hset.
    split; [done|]. unfold get_subject_list. by rewrite Hset.
Qed.

Lemma C9_subject_list_witness :
  get_subject_list {| columns := reverse (columns scenario); rows := rows scenario |}
  = get_subject_list scenario.
Proof.
  apply (proj2 (proj2 (proj2 (C9_subject_list scenario)))
           {| columns := reverse (columns scenario); rows := rows scenario |}).
  apply reverse_Permutation.
Defined.

(** C10: a subject of the list always comes from a column outside the
    exclusion list; an excluded column can be dropped from the table
    without changing the result; in particular ["Coding_Expertise"], whose
    upper-cased name contains ["ISE"] and which would otherwise give the
    subject ["Coding Expert"], gives none, and a table of excluded columns
    only has no subjects. *)
Theorem C10_excluded_columns (df : DataFrame) :
  (∀ s, s ∈ get_subject_list df →
        ∃ col, col ∈ columns df ∧ (col ∉ exclude_cols) ∧ column_subject col = Some s) ∧
  (∀ (e : string) (cols1 cols2 : list string),
     e ∈ exclude_cols →
     columns df = cols1 ++ e :: cols2 →
     get_subject_list df
     = get_subject_list {| columns := cols1 ++ cols2; rows := rows df |}) ∧
  Py.contains "ISE" (Py.upper "Coding_Expertise") = true ∧
  column_subject "Coding_Expertise" = Some "Coding Expert" ∧
  get_subject_list {| columns := exclude_cols; rows := rows df |} = [].
Proof.
  split; [|split; [|split; [done|split; [done|by vm_compute]]]].
  - intros s Hs. by apply elem_of_subject_set, elem_of_get_subject_list.
  - intros e cols1 cols2 He Hcols.
    unfold get_subject_list, subject_set. simpl. rewrite Hcols.
    rewrite !filter_app, filter_cons_False; [done|]. by intros Hne.
Qed.

Lemma C10_excluded_columns_witness :
  get_subject_list {| columns := ["MATHS MSE"; "Coding_Expertise"; "OS TW"]; rows := [] |}
  = get_subject_list {| columns := ["MATHS MSE"; "OS TW"]; rows := [] |}.
Proof.
  apply (proj1 (proj2 (C10_excluded_columns
           {| columns := ["MATHS MSE"; "Coding_Expertise"; "OS TW"]; rows := [] |}))
           "Coding_Expertise" ["MATHS MSE"] ["OS TW"]).
  - unfold exclude_cols. set_solver.
  - reflexivity.
Defined.

Example scenario_subject_list : get_subject_list scenario = ["Dbms"; "Maths"].
Proof. by vm_compute. Qed.

(** ** The row percentage *)

Section RowPercentageFacts.

Variable extract_max_marks_from_header : string → Q.

Lemma Qsum_cons (x : Q) (l : list Q) : Qsum (x :: l) = (x + Qsum l)%Q.
Proof. reflexivity. Qed.

(** The accumulators of the loop: both sums run over the columns whose
    cell is a number. *)
Lemma row_percentage_fold (row : gmap string cell) (cols : list string) (a b : Q) :
  let r := foldl (row_percentage_step extract_max_marks_from_header row) (a, b) cols in
  let numeric := filter (λ c, is_numeric (row_get row c)) cols in
  (r.1 == a + Qsum ((λ c, numeric_value (row_get row c)) <$> numeric))%Q ∧
  (r.2 == b + Qsum (extract_max_marks_from_header <$> numeric))%Q.
Proof.
  revert a b. induction cols as [|c cols IH]; intros a b.
  - simpl. split; ring.
  - cbn [foldl]. unfold row_percentage_step at 2 4.
    destruct (row_get row c) as [q| | |t] eqn:Hc; cbn [float].
    + rewrite filter_cons_True by (by rewrite Hc).
      rewrite !fmap_cons, !Qsum_cons, Hc.
      destruct (IH (a + q)%Q (b + extract_max_marks_from_header c)%Q) as [H1 H2].
      cbn [fst snd numeric_value] in *. rewrite H1, H2. split; ring.
    + rewrite filter_cons_False by (rewrite Hc; intros []). apply IH.
    + rewrite filter_cons_False by (rewrite Hc; intros []). apply IH.
    + rewrite filter_cons_False by (rewrite Hc; intros []). apply IH.
Qed.

(** A cell that is not a number adds nothing to the numerator. *)
Lemma Qsum_numeric_filter (row : gmap string cell) (cols : list string) :
  (Qsum ((λ c, numeric_value (row_get row c)) <$>
           filter (λ c, is_numeric (row_get row c)) cols)
   == Qsum ((λ c, numeric_value (row_get row c)) <$> cols))%Q.
Proof.
  induction cols as [|c cols IH]; [reflexivity|].
  rewrite fmap_cons, Qsum_cons.
  destruct (row_get row c) as [q| | |t] eqn:Hc.
  - rewrite filter_cons_True by (by rewrite Hc).
    rewrite fmap_cons, Qsum_cons, Hc, IH. reflexivity.
  - rewrite filter_cons_False by (rewrite Hc; intros []). rewrite IH. simpl. ring.
  - rewrite filter_cons_False by (rewrite Hc; intros []). rewrite IH. simpl. ring.
  - rewrite filter_cons_False by (rewrite Hc; intros []). rewrite IH. simpl. ring.
Qed.

Lemma row_percentage_cases (row : gmap string cell) (cols : list string) :
  let obtained := Qsum ((λ c, numeric_value (row_get row c)) <$> cols) in
  let max_total :=
    Qsum (extract_max_marks_from_header <$>
            filter (λ c, is_numeric (row_get row c)) cols) in
  ((0 < max_total)%Q →
   ∃ p, _row_percentage extract_max_marks_from_header row cols = Fin p ∧
        (p == obtained / max_total * 100)%Q) ∧
  (¬ (0 < max_total)%Q →
   _row_percentage extract_max_marks_from_header row cols = FNaN).
Proof.
  intros obtained max_total. unfold _row_percentage.
  destruct (row_percentage_fold row cols 0 0) as [H1 H2].
  destruct (foldl _ _ cols) as [o m]. cbn [fst snd] in H1, H2.
  rewrite Qplus_0_l in H1, H2. rewrite Qsum_numeric_filter in H1.
  fold obtained in H1. fold max_total in H2.
  split.
  - intros Hpos. rewrite <-H2 in Hpos.
    assert ((0 ?= m)%Q = Lt) as -> by (by apply Qlt_alt).
    eexists. split; [done|]. by rewrite H1, H2.
  - intros Hnpos. rewrite <-H2 in Hnpos.
    destruct (0 ?= m)%Q eqn:Hcmp; [done| |done].
    by apply Qlt_alt in Hcmp.
Qed.

End RowPercentageFacts.

Lemma Qsum_filter_bounds (f : string → Q) (P : string → bool) (cols : list string) :
  (∀ c, c ∈ cols → (0 <= f c)%Q) →
  (0 <= Qsum (f <$> filter (λ c, P c) cols))%Q ∧
  (Qsum (f <$> filter (λ c, P c) cols) <= Qsum (f <$> cols))%Q.
Proof.
  induction cols as [|c cols IH]; intros Hpos.
  - simpl. split; apply Qle_refl.
  - assert (0 <= f c)%Q as Hc by (apply Hpos; left).
    destruct IH as [IH1 IH2]; [intros c' Hc'; apply Hpos; by right|].
    rewrite fmap_cons, Qsum_cons. destruct (P c) eqn:HP.
    + rewrite filter_cons_True by (by rewrite HP).
      rewrite fmap_cons, Qsum_cons. split; lra.
    + rewrite filter_cons_False by (rewrite HP; intros []). split; lra.
Qed.

(** C3, as stated, fails: for a row whose ESE cell is missing, the
    maximum of the ESE column is left out of the denominator, so that
    20 marks count as 20/25 (80 percent) and not as 20/(25+60). *)
Lemma C3_counterexample :
  ∃ p, _row_percentage header_max absent_row ["MATHS MSE"; "MATHS ESE"] = Fin p ∧
       (p == 80)%Q ∧
       (claimed_row_percentage header_max absent_row ["MATHS MSE"; "MATHS ESE"]
        == 400 # 17)%Q ∧
       ¬ (p == claimed_row_percentage header_max absent_row ["MATHS MSE"; "MATHS ESE"])%Q.
Proof.
  eexists. split; [by vm_compute|]. split; [done|]. split; [done|].
  intros H. vm_compute in H. discriminate.
Qed.

(** C3 (amended): [_row_percentage] returns the sum of the numeric cell
    values of the listed columns (a missing or non-numeric cell adds
    nothing) divided by the sum of the inferred maxima of those listed
    columns whose cell in the row is numeric, times 100, when that sum of
    maxima is positive, and [nan] otherwise.  For the first row of the
    scenario (20, 45 and 20 against maxima 25, 60 and 25) the result is
    850/11, that is 77.27 to two decimals. *)
Theorem C3_row_percentage (extract_max_marks_from_header : string → Q)
    (row : gmap string cell) (cols : list string) :
  let obtained := Qsum ((λ c, numeric_value (row_get row c)) <$> cols) in
  let max_total :=
    Qsum (extract_max_marks_from_header <$>
            filter (λ c, is_numeric (row_get row c)) cols) in
  ((0 < max_total)%Q →
   ∃ p, _row_percentage extract_max_marks_from_header row cols = Fin p ∧
        (p == obtained / max_total * 100)%Q) ∧
  (¬ (0 < max_total)%Q →
   _row_percentage extract_max_marks_from_header row cols = FNaN) ∧
  ((extract_max_marks_from_header "MATHS MSE" == 25)%Q →
   (extract_max_marks_from_header "MATHS ESE" == 60)%Q →
   (extract_max_marks_from_header "DBMS PRACTICAL" == 25)%Q →
   ∃ p, _row_percentage extract_max_marks_from_header scenario_row1 scenario_cols
        = Fin p ∧
        (p == 850 # 11)%Q ∧ (7727 # 100 <= p)%Q ∧ (p < 7728 # 100)%Q).
Proof.
  intros obtained max_total.
  destruct (row_percentage_cases extract_max_marks_from_header row cols) as [H1 H2].
  split; [done|]. split; [done|].
  intros Hmse Hese Hpr.
  destruct (row_percentage_cases extract_max_marks_from_header
              scenario_row1 scenario_cols) as [Hpos _].
  assert (filter (λ c, is_numeric (row_get scenario_row1 c)) scenario_cols
          = scenario_cols) as Hf by (by vm_compute).
  rewrite Hf in Hpos.
  assert (Qsum (extract_max_marks_from_header <$> scenario_cols) == 110)%Q as Hmax.
  { unfold scenario_cols. rewrite !fmap_cons, !Qsum_cons, Hmse, Hese, Hpr. done. }
  assert (Qsum ((λ c, numeric_value (row_get scenario_row1 c)) <$> scenario_cols)
          == 85)%Q as Hobt by (by vm_compute).
  destruct Hpos as (p & Hp & Hval); [by rewrite Hmax|].
  rewrite Hmax, Hobt in Hval.
  exists p. split; [done|]. rewrite Hval. by split; [|split].
Qed.

Lemma C3_row_percentage_witness :
  ∃ p, _row_percentage header_max scenario_row1 scenario_cols = Fin p ∧
       (p == 850 # 11)%Q ∧ (7727 # 100 <= p)%Q ∧ (p < 7728 # 100)%Q.
Proof.
  apply (proj2 (proj2 (C3_row_percentage header_max scenario_row1 scenario_cols)));
    reflexivity.
Defined.

(** C8: when the maxima that [_row_percentage] sums add up to zero, and in
    particular when the maxima of all the listed columns are non-negative
    and add up to zero, or when no column is listed, the result is [nan],
    which is not a zero percentage; no division takes place. *)
Theorem C8_row_percentage_no_data (extract_max_marks_from_header : string → Q)
    (row : gmap string cell) (cols : list string) :
  ((Qsum (extract_max_marks_from_header <$>
            filter (λ c, is_numeric (row_get row c)) cols) == 0)%Q →
   _row_percentage extract_max_marks_from_header row cols = FNaN) ∧
  ((∀ c, c ∈ cols → (0 <= extract_max_marks_from_header c)%Q) →
   (Qsum (extract_max_marks_from_header <$> cols) == 0)%Q →
   _row_percentage extract_max_marks_from_header row cols = FNaN) ∧
  (cols = [] → _row_percentage extract_max_marks_from_header row cols = FNaN) ∧
  FNaN ≠ Fin 0.
Proof.
  destruct (row_percentage_cases extract_max_marks_from_header row cols) as [_ Hnan].
  split; [|split; [|split; [|done]]].
  - intros Hzero. apply Hnan. rewrite Hzero. apply Qlt_irrefl.
  - intros Hpos Hzero. apply Hnan.
    destruct (Qsum_filter_bounds extract_max_marks_from_header
                (λ c, is_numeric (row_get row c)) cols Hpos) as [_ Hle].
    rewrite Hzero in Hle. by apply Qle_not_lt.
  - by intros ->.
Qed.

Lemma C8_row_percentage_no_data_witness :
  _row_percentage header_max absent_row ["MATHS ESE"; "MATHS TW"] = FNaN ∧
  _row_percentage (λ _, 0%Q) scenario_row1 scenario_cols = FNaN.
Proof.
  split.
  - apply (proj1 (C8_row_percentage_no_data header_max absent_row
                    ["MATHS ESE"; "MATHS TW"])).
    reflexivity.
  - apply (proj1 (proj2 (C8_row_percentage_no_data (λ _, 0%Q)
                           scenario_row1 scenario_cols))).
    + intros c _. apply Qle_refl.
    + reflexivity.
Defined.

(** ** Subject marks *)

Lemma foldl_append_if {A} (P : A → bool) (l acc : list A) :
  foldl (λ acc x, if P x then acc ++ [x] else acc) acc l
  = acc ++ filter (λ x, P x) l.
Proof.
  revert acc. induction l as [|x l IH]; intros acc; simpl.
  - by rewrite app_nil_r.
  - rewrite IH. destruct (P x) eqn:HP.
    + rewrite filter_cons_True by (by rewrite HP). by rewrite <-app_assoc.
    + by rewrite filter_cons_False by (rewrite HP; intros []).
Qed.

Lemma foldl_append_each {A B} (g : A → B) (l : list A) (acc : list B) :
  foldl (λ acc x, acc ++ [g x]) acc l = acc ++ (g <$> l).
Proof.
  revert acc. induction l as [|x l IH]; intros acc; simpl.
  - by rewrite app_nil_r.
  - by rewrite IH, <-app_assoc.
Qed.

Lemma exam_cols_filter (df : DataFrame) (subject_name : string) :
  exam_cols df subject_name
  = filter (λ col, is_exam_col subject_name col) (columns df).
Proof. unfold exam_cols. by rewrite foldl_append_if. Qed.

(** The total of a row: every cell adds its numeric value, or nothing. *)
Lemma foldl_add_marks (row : gmap string cell) (cols : list string) (t : Q) :
  (foldl (add_marks row) t cols
   == t + Qsum ((λ col, numeric_value (row_get row col)) <$> cols))%Q.
Proof.
  revert t. induction cols as [|col cols IH]; intros t.
  - simpl. ring.
  - cbn [foldl]. rewrite IH, fmap_cons, Qsum_cons. unfold add_marks.
    destruct (row_get row col); simpl; ring.
Qed.

Lemma get_subject_marks_Some (df : DataFrame) (subject_name : string) :
  exam_cols df subject_name ≠ [] →
  get_subject_marks df subject_name
  = Some ((λ row, foldl (add_marks row) 0%Q (exam_cols df subject_name)) <$> rows df).
Proof.
  intros Hne. unfold get_subject_marks.
  destruct (exam_cols df subject_name) as [|col cols]; [done|].
  by rewrite foldl_append_each.
Qed.

Lemma get_subject_marks_None (df : DataFrame) (subject_name : string) :
  get_subject_marks df subject_name = None ↔ exam_cols df subject_name = [].
Proof.
  unfold get_subject_marks.
  destruct (exam_cols df subject_name) as [|col cols]; split; done.
Qed.

(** C6: when some column of the table passes the MSE/ESE test for the
    subject, [get_subject_marks] returns a list with exactly one total per
    row, the [i]-th total being that of the [i]-th row: the sum over the
    selected columns of the row's values, a missing or non-numeric entry
    counting as zero.  Marks of 20 (MSE) and 50 (ESE) give the raw total
    70. *)
Theorem C6_subject_marks (df : DataFrame) (subject_name : string) :
  ((∃ col, col ∈ columns df ∧ is_exam_col subject_name col = true) →
   ∃ marks_data : list Q,
     get_subject_marks df subject_name = Some marks_data ∧
     length marks_data = length (rows df) ∧
     ∀ (i : nat) (row : gmap string cell),
       rows df !! i = Some row →
       ∃ total : Q,
         marks_data !! i = Some total ∧
         (total ==
          Qsum ((λ col, numeric_value (row_get row col)) <$>
                  filter (λ col, is_exam_col subject_name col) (columns df)))%Q) ∧
  get_subject_marks three_students "Maths" = Some [70; 40; 85]%Q ∧
  get_subject_marks scenario "Maths" = Some [65; 40]%Q.
Proof.
  split; [|by vm_compute].
  intros (col & Hcol & Hexam).
  assert (exam_cols df subject_name ≠ []) as Hne.
  { rewrite exam_cols_filter. intros Hnil.
    assert (col ∈ filter (λ col, is_exam_col subject_name col) (columns df)) as Hin
      by (apply list_elem_of_filter; by rewrite Hexam).
    rewrite Hnil in Hin. by inversion Hin. }
  eexists. split; [by apply get_subject_marks_Some|].
  split; [by rewrite length_fmap|].
  intros i row Hrow. eexists. split.
  - by rewrite list_lookup_fmap, Hrow.
  - cbv beta. rewrite foldl_add_marks, Qplus_0_l, exam_cols_filter. reflexivity.
Qed.

Lemma C6_subject_marks_witness :
  ∃ marks_data : list Q,
    get_subject_marks three_students "Maths" = Some marks_data ∧
    length marks_data = length (rows three_students) ∧
    ∀ (i : nat) (row : gmap string cell),
      rows three_students !! i = Some row →
      ∃ total : Q,
        marks_data !! i = Some total ∧
        (total ==
         Qsum ((λ col, numeric_value (row_get row col)) <$>
                 filter (λ col, is_exam_col "Maths" col) (columns three_students)))%Q.
Proof.
  apply (proj1 (C6_subject_marks three_students "Maths")).
  exists "MATHS MSE". split; [|reflexivity].
  unfold three_students. simpl. set_solver.
Defined.

(** C5: [get_subject_marks] selects exactly the columns whose upper-cased
    header contains the subject name (compared in upper case, as the
    header is) and contains ["MSE"] or ["ESE"]; when the table has no such
    column it returns [None] (and only then), not a list of zeros, and
    [get_subject_marks_summary] returns that [None] too. *)
Theorem C5_subject_marks_no_data (df : DataFrame) (subject_name : string) :
  (∀ col, col ∈ exam_cols df subject_name ↔
          col ∈ columns df ∧
          Py.contains (Py.upper subject_name) (Py.upper col) = true ∧
          (Py.contains "MSE" (Py.upper col) = true ∨
           Py.contains "ESE" (Py.upper col) = true)) ∧
  ((∀ col, col ∈ columns df → is_exam_col subject_name col = false) →
   get_subject_marks df subject_name = None ∧
   get_subject_marks df subject_name ≠ Some (replicate (length (rows df)) 0%Q) ∧
   get_subject_marks_summary df subject_name = Returns None) ∧
  (get_subject_marks df subject_name = None →
   (∀ col, col ∈ columns df → is_exam_col subject_name col = false) ∧
   get_subject_marks_summary df subject_name = Returns None).
Proof.
  split; [|split].
  - intros col. rewrite exam_cols_filter, list_elem_of_filter.
    unfold is_exam_col. rewrite Is_true_true, andb_true_iff, orb_true_iff. tauto.
  - intros Hnone.
    assert (get_subject_marks df subject_name = None) as Hmarks.
    { apply get_subject_marks_None. rewrite exam_cols_filter.
      induction (columns df) as [|col cols IH]; [done|].
      rewrite filter_cons_False.
      - apply IH. intros col' Hcol'. apply Hnone. by right.
      - rewrite (Hnone col); [intros []|left]. }
    unfold get_subject_marks_summary. by rewrite Hmarks.
  - intros Hmarks. split.
    + apply get_subject_marks_None in Hmarks. rewrite exam_cols_filter in Hmarks.
      intros col Hcol. destruct (is_exam_col subject_name col) eqn:Hexam; [|done].
      assert (col ∈ filter (λ col, is_exam_col subject_name col) (columns df)) as Hin
        by (apply list_elem_of_filter; by rewrite Hexam).
      rewrite Hmarks in Hin. by inversion Hin.
    + unfold get_subject_marks_summary. by rewrite Hmarks.
Qed.

Lemma C5_subject_marks_no_data_witness :
  get_subject_marks scenario "Physics" = None ∧
  get_subject_marks scenario "Physics" ≠ Some (replicate (length (rows scenario)) 0%Q) ∧
  get_subject_marks_summary scenario "Physics" = Returns None.
Proof.
  apply (proj1 (proj2 (C5_subject_marks_no_data scenario "Physics"))).
  intros col Hcol. unfold scenario in Hcol. simpl in Hcol.
  repeat (apply elem_of_cons in Hcol as [->|Hcol]; [reflexivity|]).
  by apply elem_of_nil in Hcol.
Defined.

(** ** Summary statistics *)

Lemma np_std_three : np_std [70; 40; 85]%Q = sqrt 350.
Proof.
  unfold np_std. f_equal.
  rewrite (Qeq_eqR (np_var [70; 40; 85]%Q) 350%Q) by (by vm_compute).
  unfold Q2R. simpl. lra.
Qed.

Lemma sqrt_350_bounds : (1870 / 100 < sqrt 350 < 1871 / 100)%R.
Proof.
  split.
  - rewrite <-(sqrt_square (1870 / 100)) by lra.
    apply sqrt_lt_1_alt. lra.
  - rewrite <-(sqrt_square (1871 / 100)) by lra.
    apply sqrt_lt_1_alt. lra.
Qed.

Lemma np_max_upper_bound (l : list Q) (x : Q) :
  (x <= np_max x l)%Q ∧ ∀ y, y ∈ l → (y <= np_max x l)%Q.
Proof.
  revert x. induction l as [|a l IH]; intros x; unfold np_max in *; cbn [foldl].
  - split; [apply Qle_refl|]. intros y Hy. by inversion Hy.
  - destruct (IH (Qmax x a)) as [H1 H2]. split.
    + eapply Qle_trans; [apply Q.le_max_l|exact H1].
    + intros y Hy. apply elem_of_cons in Hy as [->|Hy]; [|by apply H2].
      eapply Qle_trans; [apply Q.le_max_r|exact H1].
Qed.

Lemma np_min_lower_bound (l : list Q) (x : Q) :
  (np_min x l <= x)%Q ∧ ∀ y, y ∈ l → (np_min x l <= y)%Q.
Proof.
  revert x. induction l as [|a l IH]; intros x; unfold np_min in *; cbn [foldl].
  - split; [apply Qle_refl|]. intros y Hy. by inversion Hy.
  - destruct (IH (Qmin x a)) as [H1 H2]. split.
    + eapply Qle_trans; [exact H1|apply Q.le_min_l].
    + intros y Hy. apply elem_of_cons in Hy as [->|Hy]; [|by apply H2].
      eapply Qle_trans; [exact H1|apply Q.le_min_r].
Qed.

Lemma Qmax_cases (x y : Q) : Qmax x y = x ∨ Qmax x y = y.
Proof. unfold Qmax, GenericMinMax.gmax. destruct (x ?= y)%Q; auto. Qed.

Lemma Qmin_cases (x y : Q) : Qmin x y = x ∨ Qmin x y = y.
Proof. unfold Qmin, GenericMinMax.gmin. destruct (x ?= y)%Q; auto. Qed.

Lemma np_max_elem_of (l : list Q) (x : Q) : np_max x l ∈ x :: l.
Proof.
  revert x. induction l as [|a l IH]; intros x; unfold np_max in *; cbn [foldl].
  - left.
  - specialize (IH (Qmax x a)). apply elem_of_cons in IH as [->|IH].
    + destruct (Qmax_cases x a) as [->| ->]; [left|right; left].
    + right. by right.
Qed.

Lemma np_min_elem_of (l : list Q) (x : Q) : np_min x l ∈ x :: l.
Proof.
  revert x. induction l as [|a l IH]; intros x; unfold np_min in *; cbn [foldl].
  - left.
  - specialize (IH (Qmin x a)). apply elem_of_cons in IH as [->|IH].
    + destruct (Qmin_cases x a) as [->| ->]; [left|right; left].
    + right. by right.
Qed.

Lemma np_mean_total (x : Q) (l : list Q) :
  (np_mean (x :: l) * inject_Z (Z.of_nat (length (x :: l))) == Qsum (x :: l))%Q.
Proof.
  unfold np_mean. field.
  change 0%Q with (inject_Z 0). rewrite inject_Z_injective. simpl. lia.
Qed.

Lemma Qsquare_nonneg (q : Q) : (0 <= q * q)%Q.
Proof. destruct q as [n d]. unfold Qle, Qmult. simpl. nia. Qed.

Lemma Qsum_squares_nonneg (m : Q) (l : list Q) :
  (0 <= Qsum ((λ x, (x - m) * (x - m)) <$> l))%Q.
Proof.
  induction l as [|x l IH]; [apply Qle_refl|].
  rewrite fmap_cons, Qsum_cons.
  pose proof (Qsquare_nonneg (x - m)). lra.
Qed.

Lemma np_var_nonneg (l : list Q) : (0 <= np_var l)%Q.
Proof.
  unfold np_var, np_mean at 1, Qdiv.
  apply Qmult_le_0_compat; [apply Qsum_squares_nonneg|].
  apply Qinv_le_0_compat.
  change 0%Q with (inject_Z 0). rewrite <-Zle_Qle. lia.
Qed.

(** The square of [np.std] is the population variance. *)
Lemma np_std_square (l : list Q) :
  (0 <= np_std l)%R ∧ (np_std l * np_std l = Q2R (np_var l))%R.
Proof.
  unfold np_std. split; [apply sqrt_pos|]. apply sqrt_sqrt.
  rewrite <-RMicromega.Q2R_0. apply Qle_Rle, np_var_nonneg.
Qed.

(** C7, as stated, fails in its last figure: the population standard
    deviation of the totals 70, 40 and 85 is the square root of 350, which
    lies above 18.7 and so is not 18.3 to one decimal. *)
Lemma C7_counterexample :
  (183 / 10 + 4 / 10 < std_marks (summarise 70%Q [40; 85]%Q))%R ∧
  ¬ (Rabs (std_marks (summarise 70%Q [40; 85]%Q) - 183 / 10) < 5 / 100)%R.
Proof.
  cbn [std_marks summarise]. rewrite np_std_three.
  pose proof sqrt_350_bounds as [Hlo Hhi]. split; [lra|].
  intros Habs. apply Rabs_def2 in Habs. lra.
Qed.

(** C7 (amended): whenever [get_subject_marks] returns a non-empty list of
    totals, the summary holds that list, its mean, its greatest and least
    elements and its population standard deviation (the non-negative root
    of the mean squared deviation from the mean).  Over the per-student
    totals 70, 40 and 85 (the totals of the table [three_students]) the
    summary has average 65, maximum 85, minimum 40, population variance
    350 and population standard deviation the square root of 350, which
    lies between 18.70 and 18.71. *)
Theorem C7_marks_summary :
  (∀ (df : DataFrame) (subject_name : string) (x : Q) (l : list Q),
     get_subject_marks df subject_name = Some (x :: l) →
     ∃ s : summary,
       get_subject_marks_summary df subject_name = Returns (Some s) ∧
       total_marks s = x :: l ∧
       (average_marks s * inject_Z (Z.of_nat (length (x :: l))) == Qsum (x :: l))%Q ∧
       max_marks s ∈ x :: l ∧
       min_marks s ∈ x :: l ∧
       (∀ y, y ∈ x :: l → (min_marks s <= y)%Q ∧ (y <= max_marks s)%Q) ∧
       (0 <= std_marks s)%R ∧
       (std_marks s * std_marks s = Q2R (np_var (x :: l)))%R) ∧
  ∃ s : summary,
    get_subject_marks_summary three_students "Maths" = Returns (Some s) ∧
    s = summarise 70%Q [40; 85]%Q ∧
    total_marks s = [70; 40; 85]%Q ∧
    (average_marks s == 65)%Q ∧
    (max_marks s == 85)%Q ∧
    (min_marks s == 40)%Q ∧
    (np_var (total_marks s) == 350)%Q ∧
    std_marks s = sqrt 350 ∧
    (1870 / 100 < std_marks s < 1871 / 100)%R.
Proof.
  split.
  { intros df subject_name x l Hmarks. exists (summarise x l).
    unfold get_subject_marks_summary. rewrite Hmarks.
    split; [done|]. split; [done|]. cbn [summarise average_marks max_marks
      min_marks std_marks].
    split; [apply np_mean_total|].
    split; [apply np_max_elem_of|]. split; [apply np_min_elem_of|].
    split; [|apply np_std_square].
    intros y Hy.
    destruct (np_max_upper_bound l x) as [Hx Hl].
    destruct (np_min_lower_bound l x) as [Hx' Hl'].
    apply elem_of_cons in Hy as [->|Hy]; [done|]. split; [by apply Hl'|by apply Hl]. }
  exists (summarise 70%Q [40; 85]%Q).
  split.
  { unfold get_subject_marks_summary.
    assert (get_subject_marks three_students "Maths" = Some [70; 40; 85]%Q) as ->
      by (by vm_compute).
    done. }
  split; [done|]. split; [done|].
  split; [by vm_compute|]. split; [by vm_compute|]. split; [by vm_compute|].
  split; [by vm_compute|].
  cbn [std_marks summarise]. rewrite np_std_three.
  split; [done|apply sqrt_350_bounds].
Qed.

Lemma C7_marks_summary_witness :
  ∃ s : summary,
    get_subject_marks_summary scenario "Maths" = Returns (Some s) ∧
    total_marks s = [65; 40]%Q ∧
    (average_marks s * inject_Z (Z.of_nat (length [65; 40]%Q)) == Qsum [65; 40])%Q ∧
    max_marks s ∈ [65; 40]%Q ∧
    min_marks s ∈ [65; 40]%Q ∧
    (∀ y, y ∈ [65; 40]%Q → (min_marks s <= y)%Q ∧ (y <= max_marks s)%Q) ∧
    (0 <= std_marks s)%R ∧
    (std_marks s * std_marks s = Q2R (np_var [65; 40]%Q))%R.
Proof.
  apply (proj1 C7_marks_summary scenario "Maths" 65%Q [40%Q]).
  by vm_compute.
Defined.

(** * Further properties of the code *)

(** ** Exam types of a subject *)

Lemma elem_of_foldl_add_exam_type (subject_name t : string)
    (cols : list string) (X : gset string) :
  t ∈ foldl (add_exam_type subject_name) X cols ↔
  t ∈ X ∨ ∃ col, col ∈ cols ∧
                 Py.contains (Py.upper subject_name) (Py.upper col) = true ∧
                 exam_type_of (Py.upper col) = Some t.
Proof.
  revert X. induction cols as [|col cols IH]; intros X; simpl.
  - split; [by left|]. intros [?|(col & Hcol & _)]; [done|]. by inversion Hcol.
  - rewrite IH. unfold add_exam_type at 1. split.
    + intros [Ht|(col' & Hcol' & Hsub)].
      * destruct (Py.contains _ (Py.upper col)) eqn:Hs; [|by left].
        destruct (exam_type_of (Py.upper col)) as [t'|] eqn:Hty; [|by left].
        apply elem_of_union in Ht as [Ht|Ht]; [|by left].
        apply elem_of_singleton in Ht as ->.
        right. exists col. split; [left|done].
      * right. exists col'. split; [by right|done].
    + intros [Ht|(col' & Hcol' & Hs & Hty)].
      * left. destruct (Py.contains _ (Py.upper col)); [|done].
        destruct (exam_type_of (Py.upper col)); [|done].
        apply elem_of_union. by right.
      * apply elem_of_cons in Hcol' as [->|Hcol'].
        -- left. rewrite Hs, Hty. apply elem_of_union. left.
           by apply elem_of_singleton.
        -- right. by exists col'.
Qed.

Lemma elem_of_get_subject_exam_types (df : DataFrame) (subject_name t : string) :
  t ∈ get_subject_exam_types df subject_name ↔
  ∃ col, col ∈ columns df ∧
         Py.contains (Py.upper subject_name) (Py.upper col) = true ∧
         exam_type_of (Py.upper col) = Some t.
Proof.
  unfold get_subject_exam_types, exam_type_set.
  rewrite merge_sort_Permutation, elem_of_elements, elem_of_foldl_add_exam_type.
  split; [|by right]. intros [Ht|?]; [|done]. by apply not_elem_of_empty in Ht.
Qed.

Lemma exam_type_of_range (col_upper t : string) :
  exam_type_of col_upper = Some t →
  t ∈ ["ESE"; "ISE"; "MSE"; "PRACTICAL"; "TW"].
Proof.
  unfold exam_type_of. intros H.
  repeat match type of H with
         | (if ?b then _ else _) = _ => destruct b
         end; simplify_eq; repeat first [left | right].
Qed.

(** X1: [get_subject_exam_types] returns a sorted list without duplicates
    whose entries are among ESE, ISE, MSE, PRACTICAL and TW, so it has at
    most five entries and never lists ["PR"]; it does not depend on the
    order of the columns. *)
Theorem X1_exam_types_listing (df : DataFrame) (subject_name : string) :
  NoDup (get_subject_exam_types df subject_name) ∧
  StronglySorted String.le (get_subject_exam_types df subject_name) ∧
  (∀ t, t ∈ get_subject_exam_types df subject_name →
        t ∈ ["ESE"; "ISE"; "MSE"; "PRACTICAL"; "TW"]) ∧
  ("PR" ∉ get_subject_exam_types df subject_name) ∧
  length (get_subject_exam_types df subject_name) ≤ 5 ∧
  (∀ df' : DataFrame,
     columns df' ≡ₚ columns df →
     get_subject_exam_types df' subject_name = get_subject_exam_types df subject_name).
Proof.
  assert (NoDup (get_subject_exam_types df subject_name)) as Hnd.
  { unfold get_subject_exam_types. rewrite merge_sort_Permutation.
    apply NoDup_elements. }
  assert (∀ t, t ∈ get_subject_exam_types df subject_name →
               t ∈ ["ESE"; "ISE"; "MSE"; "PRACTICAL"; "TW"]) as Hrange.
  { intros t Ht. apply elem_of_get_subject_exam_types in Ht as (col & _ & _ & Hty).
    by eapply exam_type_of_range. }
  split; [done|]. split; [apply (StronglySorted_merge_sort _)|].
  split; [done|]. split; [|split].
  - intros Hpr. apply Hrange in Hpr.
    repeat (apply elem_of_cons in Hpr as [Hpr|Hpr]; [discriminate|]).
    by apply elem_of_nil in Hpr.
  - change 5 with (length ["ESE"; "ISE"; "MSE"; "PRACTICAL"; "TW"]).
    apply submseteq_length, NoDup_submseteq; done.
  - intros df' Hperm. unfold get_subject_exam_types. f_equal. f_equal.
    apply set_eq. intros t. unfold exam_type_set.
    rewrite !elem_of_foldl_add_exam_type. by setoid_rewrite Hperm.
Qed.

Lemma X1_exam_types_listing_witness :
  get_subject_exam_types
    {| columns := reverse (columns three_students); rows := rows three_students |}
    "Maths"
  = get_subject_exam_types three_students "Maths".
Proof.
  apply (proj2 (proj2 (proj2 (proj2 (proj2
           (X1_exam_types_listing three_students "Maths")))))
           {| columns := reverse (columns three_students);
              rows := rows three_students |}).
  apply reverse_Permutation.
Defined.

Lemma contains_PRACTICAL_PR (s : string) :
  Py.contains "PRACTICAL" s || Py.contains "PR" s = Py.contains "PR" s.
Proof.
  destruct (Py.contains "PRACTICAL" s) eqn:Hp; [|done].
  apply (contains_app_l "PR" "ACTICAL") in Hp. by rewrite Hp.
Qed.

(** X2: a column of the subject counts for one exam type only, by the
    precedence ESE, ISE, MSE, PRACTICAL, TW.  ESE is listed exactly when a
    column of the subject contains ["ESE"]; ISE needs a column with ["ISE"]
    and without ["ESE"]; MSE one without ["ESE"] and ["ISE"]; PRACTICAL a
    column with ["PR"] and none of the three written-exam markers; and TW a
    column with ["TW"] and none of the markers before it, ["PR"] included. *)
Theorem X2_exam_types_precedence (df : DataFrame) (subject_name : string) :
  let of_subject col :=
    col ∈ columns df ∧
    Py.contains (Py.upper subject_name) (Py.upper col) = true in
  let has m col := Py.contains m (Py.upper col) in
  ("ESE" ∈ get_subject_exam_types df subject_name ↔
   ∃ col, of_subject col ∧ has "ESE" col = true) ∧
  ("ISE" ∈ get_subject_exam_types df subject_name ↔
   ∃ col, of_subject col ∧ has "ISE" col = true ∧ has "ESE" col = false) ∧
  ("MSE" ∈ get_subject_exam_types df subject_name ↔
   ∃ col, of_subject col ∧ has "MSE" col = true ∧
          has "ESE" col = false ∧ has "ISE" col = false) ∧
  ("PRACTICAL" ∈ get_subject_exam_types df subject_name ↔
   ∃ col, of_subject col ∧ has "PR" col = true ∧
          has "ESE" col = false ∧ has "ISE" col = false ∧ has "MSE" col = false) ∧
  ("TW" ∈ get_subject_exam_types df subject_name ↔
   ∃ col, of_subject col ∧ has "TW" col = true ∧
          has "ESE" col = false ∧ has "ISE" col = false ∧ has "MSE" col = false ∧
          has "PR" col = false).
Proof.
  intros of_subject has. unfold of_subject, has.
  repeat split; rewrite elem_of_get_subject_exam_types;
    intros (col & H); exists col; revert H;
    unfold exam_type_of; rewrite contains_PRACTICAL_PR;
    destruct (Py.contains "ESE" (Py.upper col)),
             (Py.contains "ISE" (Py.upper col)),
             (Py.contains "MSE" (Py.upper col)),
             (Py.contains "PR" (Py.upper col)),
             (Py.contains "TW" (Py.upper col)); intuition congruence.
Qed.

Lemma exam_cols_nonempty (df : DataFrame) (subject_name : string) :
  exam_cols df subject_name ≠ [] ↔
  ∃ col, col ∈ columns df ∧ is_exam_col subject_name col = true.
Proof.
  rewrite exam_cols_filter. split.
  - destruct (filter _ (columns df)) as [|col cols] eqn:Hf; [done|]. intros _.
    assert (col ∈ filter (λ col, is_exam_col subject_name col) (columns df))
      as Hin by (rewrite Hf; left).
    apply list_elem_of_filter in Hin as [Hexam Hcol].
    exists col. split; [done|]. by apply Is_true_true.
  - intros (col & Hcol & Hexam) Hnil.
    assert (col ∈ filter (λ col, is_exam_col subject_name col) (columns df))
      as Hin by (apply list_elem_of_filter; by rewrite Hexam).
    rewrite Hnil in Hin. by inversion Hin.
Qed.

Lemma exam_types_written (df : DataFrame) (subject_name : string) :
  let of_subject col :=
    col ∈ columns df ∧
    Py.contains (Py.upper subject_name) (Py.upper col) = true in
  (∀ col, of_subject col → Py.contains "ESE" (Py.upper col) = true →
          "ESE" ∈ get_subject_exam_types df subject_name) ∧
  (∀ col, of_subject col → Py.contains "ESE" (Py.upper col) = false →
          Py.contains "ISE" (Py.upper col) = true →
          "ISE" ∈ get_subject_exam_types df subject_name) ∧
  (∀ col, of_subject col → Py.contains "ESE" (Py.upper col) = false →
          Py.contains "ISE" (Py.upper col) = false →
          Py.contains "MSE" (Py.upper col) = true →
          "MSE" ∈ get_subject_exam_types df subject_name) ∧
  (∀ t, t ∈ ["ESE"; "MSE"] → t ∈ get_subject_exam_types df subject_name →
        ∃ col, of_subject col ∧ Py.contains t (Py.upper col) = true).
Proof.
  intros of_subject. unfold of_subject. repeat split.
  - intros col [Hcol Hs] He. apply elem_of_get_subject_exam_types.
    exists col. unfold exam_type_of. by rewrite He.
  - intros col [Hcol Hs] He Hi. apply elem_of_get_subject_exam_types.
    exists col. unfold exam_type_of. by rewrite He, Hi.
  - intros col [Hcol Hs] He Hi Hm. apply elem_of_get_subject_exam_types.
    exists col. unfold exam_type_of. by rewrite He, Hi, Hm.
  - intros t Ht Hin.
    apply elem_of_get_subject_exam_types in Hin as (col & Hcol & Hs & Hty).
    exists col. split; [done|]. revert Hty. unfold exam_type_of.
    apply elem_of_cons in Ht as [->|Ht];
      [|apply elem_of_cons in Ht as [->|Ht]; [|by apply elem_of_nil in Ht]];
      repeat match goal with
             | |- context [if ?b then _ else _] => destruct b eqn:?
             end; congruence.
Qed.

(** X3: the exam types and the marks of a subject agree on the written
    exams: when ESE or MSE is listed for the subject, [get_subject_marks]
    returns totals, and when it returns totals one of ESE, ISE and MSE is
    listed (ISE for a column that carries both ["ISE"] and ["MSE"]). *)
Theorem X3_exam_types_and_marks (df : DataFrame) (subject_name : string) :
  ("ESE" ∈ get_subject_exam_types df subject_name ∨
   "MSE" ∈ get_subject_exam_types df subject_name →
   get_subject_marks df subject_name ≠ None) ∧
  (get_subject_marks df subject_name ≠ None →
   "ESE" ∈ get_subject_exam_types df subject_name ∨
   "ISE" ∈ get_subject_exam_types df subject_name ∨
   "MSE" ∈ get_subject_exam_types df subject_name).
Proof.
  destruct (exam_types_written df subject_name) as (Hese & Hise & Hmse & Hback).
  rewrite get_subject_marks_None. split.
  - intros Hlisted. apply exam_cols_nonempty.
    assert (∃ t, t ∈ ["ESE"; "MSE"] ∧ t ∈ get_subject_exam_types df subject_name)
      as (t & Ht & Hin).
    { destruct Hlisted; [exists "ESE"|exists "MSE"];
        (split; [|done]); [left|right; left]. }
    destruct (Hback t Ht Hin) as (col & [Hcol Hs] & Hm).
    exists col. split; [done|]. unfold is_exam_col. rewrite Hs. simpl.
    apply elem_of_cons in Ht as [->|Ht]; [by rewrite Hm, orb_true_r|].
    apply elem_of_cons in Ht as [->|Ht]; [by rewrite Hm|].
    by apply elem_of_nil in Ht.
  - intros Hne. apply exam_cols_nonempty in Hne as (col & Hcol & Hexam).
    unfold is_exam_col in Hexam. apply andb_true_iff in Hexam as [Hs Hm].
    destruct (Py.contains "ESE" (Py.upper col)) eqn:He.
    { left. by apply (Hese col). }
    destruct (Py.contains "ISE" (Py.upper col)) eqn:Hi.
    { right. left. by apply (Hise col). }
    right. right. apply (Hmse col); [done..|]. by rewrite orb_false_r in Hm.
Qed.

Lemma X3_exam_types_and_marks_witness :
  get_subject_marks scenario "Maths" ≠ None.
Proof.
  apply (proj1 (X3_exam_types_and_marks scenario "Maths")).
  left.
  assert (get_subject_exam_types scenario "Maths" = ["ESE"; "MSE"]) as ->
    by (by vm_compute).
  left.
Defined.

(** ** Marks of a subject: errors, guards and invariants *)

(** X4: [get_subject_marks_summary] fails (in [np.max], on an empty list
    of marks) exactly when the subject has an MSE or ESE column and the
    table has no rows; on a table with at least one row it never fails. *)
Theorem X4_summary_raises (df : DataFrame) (subject_name : string) :
  (get_subject_marks_summary df subject_name = Raises ↔
   (∃ col, col ∈ columns df ∧ is_exam_col subject_name col = true) ∧
   rows df = []) ∧
  (rows df ≠ [] → get_subject_marks_summary df subject_name ≠ Raises).
Proof.
  assert (get_subject_marks_summary df subject_name = Raises ↔
          (∃ col, col ∈ columns df ∧ is_exam_col subject_name col = true) ∧
          rows df = []) as Hiff.
  { rewrite <-exam_cols_nonempty. unfold get_subject_marks_summary.
    destruct (decide (exam_cols df subject_name = [])) as [Hnil|Hne].
    - rewrite (proj2 (get_subject_marks_None df subject_name) Hnil).
      split; [done|]. by intros [? _].
    - rewrite (get_subject_marks_Some df subject_name Hne).
      destruct (rows df) as [|row rws]; simpl; split; try done.
      by intros [_ ?]. }
  split; [done|]. intros Hrows Hraise. apply Hiff in Hraise as [_ ?]. done.
Qed.

Lemma X4_summary_raises_witness :
  get_subject_marks_summary scenario "Maths" ≠ Raises ∧
  get_subject_marks_summary scenario "Physics" ≠ Raises.
Proof.
  split; apply (proj2 (X4_summary_raises scenario _)); discriminate.
Defined.

(** X5: under the guard [if subject_marks:] of the pages, which rejects
    both [None] and the empty list, the subject has an MSE or ESE column
    and the table has a row, and [get_subject_marks_summary] returns a
    summary of the same marks: it neither fails nor returns [None]. *)
Theorem X5_guarded_summary (df : DataFrame) (subject_name : string) :
  (truthy (get_subject_marks df subject_name) = true ↔
   (∃ col, col ∈ columns df ∧ is_exam_col subject_name col = true) ∧
   rows df ≠ []) ∧
  (truthy (get_subject_marks df subject_name) = true →
   ∃ s : summary,
     get_subject_marks_summary df subject_name = Returns (Some s) ∧
     get_subject_marks df subject_name = Some (total_marks s)).
Proof.
  rewrite <-exam_cols_nonempty. unfold get_subject_marks_summary.
  destruct (decide (exam_cols df subject_name = [])) as [Hnil|Hne].
  - rewrite (proj2 (get_subject_marks_None df subject_name) Hnil). simpl.
    split; [|done]. split; [done|]. by intros [? _].
  - rewrite (get_subject_marks_Some df subject_name Hne).
    destruct (rows df) as [|row rws]; simpl.
    + split; [|done]. split; [done|]. by intros [_ ?].
    + split; [done|]. intros _. by eexists.
Qed.

Lemma X5_guarded_summary_witness :
  ∃ s : summary,
    get_subject_marks_summary three_students "Maths" = Returns (Some s) ∧
    get_subject_marks three_students "Maths" = Some (total_marks s).
Proof.
  apply (proj2 (X5_guarded_summary three_students "Maths")).
  by vm_compute.
Defined.

Lemma foldl_add_marks_ext (row row' : gmap string cell) (cols : list string) (t : Q) :
  (∀ col, col ∈ cols → row_get row col = row_get row' col) →
  foldl (add_marks row) t cols = foldl (add_marks row') t cols.
Proof.
  revert t. induction cols as [|col cols IH]; intros t Hagree; [done|].
  cbn [foldl]. unfold add_marks at 2 4. rewrite (Hagree col) by left.
  apply IH. intros col' Hcol'. apply Hagree. by right.
Qed.

(** X6: the totals depend on the selected columns only: two tables with
    the same headers whose rows agree, row by row, on the cells of the
    subject's MSE and ESE columns have the same result, whatever their
    other cells hold. *)
Theorem X6_marks_selected_columns_only (df df' : DataFrame) (subject_name : string) :
  columns df = columns df' →
  Forall2 (λ row row', ∀ col, col ∈ exam_cols df subject_name →
                              row_get row col = row_get row' col)
          (rows df) (rows df') →
  get_subject_marks df subject_name = get_subject_marks df' subject_name.
Proof.
  intros Hcols Hrows.
  assert (exam_cols df' subject_name = exam_cols df subject_name) as Hsel
    by (unfold exam_cols; by rewrite Hcols).
  destruct (decide (exam_cols df subject_name = [])) as [Hnil|Hne].
  - rewrite (proj2 (get_subject_marks_None df subject_name) Hnil).
    symmetry. apply get_subject_marks_None. by rewrite Hsel.
  - rewrite (get_subject_marks_Some df subject_name Hne).
    rewrite (get_subject_marks_Some df' subject_name) by (by rewrite Hsel).
    rewrite Hsel. f_equal.
    induction Hrows as [|row row' rws rws' Hrow _ IH]; [done|].
    rewrite !fmap_cons, IH. f_equal. by apply foldl_add_marks_ext.
Qed.

Lemma X6_marks_selected_columns_only_witness :
  get_subject_marks three_students "Maths"
  = get_subject_marks
      {| columns := columns three_students;
         rows := (λ row, <["Name" := Text "-"]> (delete "MATHS TW" row))
                   <$> rows three_students |}
      "Maths".
Proof.
  apply X6_marks_selected_columns_only; [reflexivity|].
  assert (exam_cols three_students "Maths" = ["MATHS MSE"; "MATHS ESE"]) as ->
    by (by vm_compute).
  apply Forall2_fmap_r, Forall_Forall2_diag, Forall_forall.
  intros row _ col Hcol. unfold row_get. f_equal.
  apply elem_of_cons in Hcol as [->|Hcol];
    [|apply elem_of_cons in Hcol as [->|Hcol]; [|by apply elem_of_nil in Hcol]].
  - by rewrite lookup_insert_ne, lookup_delete_ne.
  - by rewrite lookup_insert_ne, lookup_delete_ne.
Defined.

Lemma contains_trans (a b c : string) :
  Py.contains a b = true → Py.contains b c = true → Py.contains a c = true.
Proof.
  rewrite !contains_app. intros (p & q & ->) (l & r & ->).
  exists (l +:+ p), (q +:+ r). by rewrite !string_app_assoc.
Qed.

Lemma contains_empty (s : string) : Py.contains "" s = true.
Proof. by destruct s. Qed.

(** X7: a subject name that occurs inside another one (compared in upper
    case) takes over its columns: every column selected for the longer
    name is selected for the shorter one, its exam types are listed for
    the shorter one, and marks for the longer name imply marks for the
    shorter one.  The empty name occurs in every name, so that it selects
    every column with ["MSE"] or ["ESE"]. *)
Theorem X7_subject_name_containment (df : DataFrame) (short long : string) :
  (Py.contains (Py.upper short) (Py.upper long) = true →
   (∀ col, col ∈ exam_cols df long → col ∈ exam_cols df short) ∧
   (∀ t, t ∈ get_subject_exam_types df long → t ∈ get_subject_exam_types df short) ∧
   (get_subject_marks df long ≠ None → get_subject_marks df short ≠ None)) ∧
  (∀ col, col ∈ exam_cols df "" ↔
          col ∈ columns df ∧
          (Py.contains "MSE" (Py.upper col) = true ∨
           Py.contains "ESE" (Py.upper col) = true)).
Proof.
  split.
  - intros Hin.
    assert (∀ col, Py.contains (Py.upper long) (Py.upper col) = true →
                   Py.contains (Py.upper short) (Py.upper col) = true) as Htrans
      by (intros col; by apply contains_trans).
    assert (∀ col, col ∈ exam_cols df long → col ∈ exam_cols df short) as Hsub.
    { intros col. rewrite !exam_cols_filter, !list_elem_of_filter.
      unfold is_exam_col. rewrite !Is_true_true, !andb_true_iff.
      intros [[Hl Hm] Hcol]. auto. }
    split; [done|]. split.
    + intros t. rewrite !elem_of_get_subject_exam_types.
      intros (col & Hcol & Hl & Hty). exists col. auto.
    + rewrite !get_subject_marks_None.
      destruct (exam_cols df long) as [|col cols]; [done|]. intros _ Hnil.
      specialize (Hsub col ltac:(left)). rewrite Hnil in Hsub. by inversion Hsub.
  - intros col. rewrite exam_cols_filter, list_elem_of_filter.
    unfold is_exam_col. rewrite Is_true_true, andb_true_iff, orb_true_iff.
    change (Py.upper "") with "". rewrite contains_empty. tauto.
Qed.

Lemma X7_subject_name_containment_witness :
  (∀ col, col ∈ exam_cols scenario "Maths" → col ∈ exam_cols scenario "math") ∧
  (∀ t, t ∈ get_subject_exam_types scenario "Maths" →
        t ∈ get_subject_exam_types scenario "math") ∧
  (get_subject_marks scenario "Maths" ≠ None →
   get_subject_marks scenario "math" ≠ None).
Proof.
  apply (proj1 (X7_subject_name_containment scenario "math" "Maths")).
  reflexivity.
Defined.

Lemma Qsum_bounds (f g : string → Q) (cols : list string) :
  (∀ col, col ∈ cols → (0 <= f col)%Q ∧ (f col <= g col)%Q) →
  (0 <= Qsum (f <$> cols))%Q ∧ (Qsum (f <$> cols) <= Qsum (g <$> cols))%Q.
Proof.
  induction cols as [|col cols IH]; intros Hb.
  - simpl. split; apply Qle_refl.
  - destruct (Hb col) as [H0 H1]; [left|].
    destruct IH as [IH0 IH1]; [intros col' Hcol'; apply Hb; by right|].
    rewrite !fmap_cons, !Qsum_cons. split; lra.
Qed.

(** X8: the totals are bounded by the columns: when every mark of the
    subject's MSE and ESE columns lies between 0 and a bound of its column
    (a missing or non-numeric mark counting as 0), every total lies
    between 0 and the sum of the bounds of the selected columns. *)
Theorem X8_marks_bounded (df : DataFrame) (subject_name : string)
    (bound : string → Q) (marks_data : list Q) :
  (∀ row col, row ∈ rows df → col ∈ exam_cols df subject_name →
              (0 <= numeric_value (row_get row col))%Q ∧
              (numeric_value (row_get row col) <= bound col)%Q) →
  get_subject_marks df subject_name = Some marks_data →
  ∀ total, total ∈ marks_data →
           (0 <= total)%Q ∧
           (total <= Qsum (bound <$> exam_cols df subject_name))%Q.
Proof.
  intros Hb Hmarks total Htotal.
  destruct (decide (exam_cols df subject_name = [])) as [Hnil|Hne].
  { apply get_subject_marks_None in Hnil. congruence. }
  rewrite (get_subject_marks_Some df subject_name Hne) in Hmarks.
  injection Hmarks as <-.
  apply list_elem_of_fmap in Htotal as (row & -> & Hrow).
  rewrite foldl_add_marks, Qplus_0_l.
  apply (Qsum_bounds (λ col, numeric_value (row_get row col)) bound).
  intros col Hcol. by apply Hb.
Qed.

Lemma X8_marks_bounded_witness :
  Forall (λ total,
            (0 <= total)%Q ∧
            (total <= Qsum (header_max <$> exam_cols three_students "Maths"))%Q)
         [70; 40; 85]%Q.
Proof.
  apply Forall_forall.
  apply (X8_marks_bounded three_students "Maths" header_max).
  - assert (exam_cols three_students "Maths" = ["MATHS MSE"; "MATHS ESE"]) as ->
      by (by vm_compute).
    intros row col Hrow Hcol. unfold three_students in Hrow. simpl in Hrow.
    repeat (apply elem_of_cons in Hrow as [->|Hrow];
            [repeat (apply elem_of_cons in Hcol as [->|Hcol];
                     [by vm_compute|]); by apply elem_of_nil in Hcol|]).
    by apply elem_of_nil in Hrow.
  - by vm_compute.
Defined.

(** ** The row percentage: range and independence *)

Lemma row_percentage_fold_numeric (extract_max_marks_from_header : string → Q)
    (row : gmap string cell) (cols : list string) (acc : Q * Q) :
  foldl (row_percentage_step extract_max_marks_from_header row) acc cols
  = foldl (row_percentage_step extract_max_marks_from_header row) acc
          (filter (λ c, is_numeric (row_get row c)) cols).
Proof.
  revert acc. induction cols as [|c cols IH]; intros acc; [done|].
  destruct (row_get row c) as [q| | |t] eqn:Hc.
  - rewrite filter_cons_True by (by rewrite Hc). cbn [foldl]. apply IH.
  - rewrite filter_cons_False by (rewrite Hc; intros []).
    cbn [foldl]. unfold row_percentage_step at 2. rewrite Hc. apply IH.
  - rewrite filter_cons_False by (rewrite Hc; intros []).
    cbn [foldl]. unfold row_percentage_step at 2. rewrite Hc. apply IH.
  - rewrite filter_cons_False by (rewrite Hc; intros []).
    cbn [foldl]. unfold row_percentage_step at 2. rewrite Hc. apply IH.
Qed.

(** X9: when every numeric cell of the listed columns lies between 0 and
    the maximum inferred for its column, a percentage returned by
    [_row_percentage] lies between 0 and 100. *)
Theorem X9_row_percentage_range (extract_max_marks_from_header : string → Q)
    (row : gmap string cell) (cols : list string) (p : Q) :
  (∀ c q, c ∈ cols → row_get row c = Num q →
          (0 <= q)%Q ∧ (q <= extract_max_marks_from_header c)%Q) →
  _row_percentage extract_max_marks_from_header row cols = Fin p →
  (0 <= p)%Q ∧ (p <= 100)%Q.
Proof.
  intros Hb Hp.
  destruct (row_percentage_cases extract_max_marks_from_header row cols)
    as [Hpos Hnan].
  set (max_total := Qsum (extract_max_marks_from_header <$>
                            filter (λ c, is_numeric (row_get row c)) cols)) in *.
  set (obtained := Qsum ((λ c, numeric_value (row_get row c)) <$> cols)) in *.
  destruct (Qlt_le_dec 0 max_total) as [Hlt|Hle].
  - destruct (Hpos Hlt) as (p' & Hp' & Hval). rewrite Hp in Hp'.
    injection Hp' as <-.
    assert ((0 <= obtained)%Q ∧ (obtained <= max_total)%Q) as [Ho0 Ho1].
    { unfold obtained. rewrite <-Qsum_numeric_filter.
      apply (Qsum_bounds (λ c, numeric_value (row_get row c))).
      intros c Hc. apply list_elem_of_filter in Hc as [Hnum Hc].
      destruct (row_get row c) as [q| | |t] eqn:Hcell; try done.
      by apply (Hb c q). }
    rewrite Hval. split.
    + apply Qmult_le_0_compat; [|done].
      apply Qmult_le_0_compat; [done|]. apply Qinv_le_0_compat. lra.
    + assert (obtained / max_total <= 1)%Q as Hdiv
        by (apply Qle_shift_div_r; [done|lra]).
      lra.
  - rewrite Hnan in Hp; [done|]. by apply Qle_not_lt.
Qed.

Lemma X9_row_percentage_range_witness :
  ∃ p, _row_percentage header_max scenario_row1 scenario_cols = Fin p ∧
       (0 <= p)%Q ∧ (p <= 100)%Q.
Proof.
  eexists. split; [by vm_compute|].
  apply (X9_row_percentage_range header_max scenario_row1 scenario_cols).
  - intros c q Hc Hq. unfold scenario_cols in Hc.
    repeat (apply elem_of_cons in Hc as [->|Hc];
            [vm_compute in Hq; injection Hq as <-; by vm_compute|]).
    by apply elem_of_nil in Hc.
  - by vm_compute.
Defined.

(** X10: [_row_percentage] ignores the listed columns whose cell in the
    row is missing or not a number: it runs the same additions, in the
    same order, as on the list without them, so that dropping all of them,
    or any one of them, from the list leaves the result unchanged. *)
Theorem X10_row_percentage_columns (extract_max_marks_from_header : string → Q)
    (row : gmap string cell) (cols : list string) :
  _row_percentage extract_max_marks_from_header row cols
  = _row_percentage extract_max_marks_from_header row
      (filter (λ c, is_numeric (row_get row c)) cols) ∧
  (∀ (cols1 cols2 : list string) (c : string),
     cols = cols1 ++ c :: cols2 →
     is_numeric (row_get row c) = false →
     _row_percentage extract_max_marks_from_header row cols
     = _row_percentage extract_max_marks_from_header row (cols1 ++ cols2)).
Proof.
  assert (∀ l,
            _row_percentage extract_max_marks_from_header row l
            = _row_percentage extract_max_marks_from_header row
                (filter (λ c, is_numeric (row_get row c)) l)) as Hfilter.
  { intros l. unfold _row_percentage. by rewrite row_percentage_fold_numeric. }
  split; [apply Hfilter|].
  intros cols1 cols2 c -> Hc.
  rewrite (Hfilter (cols1 ++ c :: cols2)), (Hfilter (cols1 ++ cols2)).
  rewrite !filter_app, filter_cons_False; [done|].
  rewrite Hc. intros [].
Qed.

Lemma X10_row_percentage_columns_witness :
  _row_percentage header_max absent_row ["MATHS MSE"; "MATHS ESE"]
  = _row_percentage header_max absent_row ["MATHS MSE"].
Proof.
  apply (proj2 (X10_row_percentage_columns header_max absent_row
                  ["MATHS MSE"; "MATHS ESE"])
           ["MATHS MSE"] [] "MATHS ESE");
    reflexivity.
Defined.

(** ** Maximum marks: range and independence *)

Lemma upper_char_idemp (c : ascii) : Py.upper_char (Py.upper_char c) = Py.upper_char c.
Proof. destruct c as [[] [] [] [] [] [] [] []]; reflexivity. Qed.

Lemma upper_idemp (s : string) : Py.upper (Py.upper s) = Py.upper s.
Proof.
  induction s as [|c s IH]; [done|].
  cbn [Py.upper Py.map_chars]. rewrite upper_char_idemp. f_equal. exact IH.
Qed.

(** X11: [_get_max_marks_for_subject] always returns one of 25, 50, 60
    and 100; the result does not depend on the subject name, nor on the
    letter case of the exam type. *)
Theorem X11_max_marks_range (subject_name other_name exam_type : string) :
  _get_max_marks_for_subject subject_name (Some exam_type)
    ∈ [25; 50; 60; 100]%Z ∧
  _get_max_marks_for_subject other_name (Some exam_type)
    = _get_max_marks_for_subject subject_name (Some exam_type) ∧
  _get_max_marks_for_subject subject_name (Some (Py.upper exam_type))
    = _get_max_marks_for_subject subject_name (Some exam_type).
Proof.
  split; [|split; [done|]].
  - destruct exam_type as [|c t]; [repeat first [left|right]|].
    unfold _get_max_marks_for_subject.
    repeat match goal with
           | |- context [if ?b then _ else _] => destruct b
           end; repeat first [left | right].
  - destruct exam_type as [|c t]; [done|].
    change (Py.upper (String c t))
      with (String (Py.upper_char c) (Py.upper t)) at 1.
    unfold _get_max_marks_for_subject.
    change (String (Py.upper_char c) (Py.upper t)) with (Py.upper (String c t)).
    by rewrite upper_idemp.
Qed.

(** ** Subject names *)

Lemma append_nil_r (s : string) : s +:+ "" = s.
Proof. induction s as [|c s IH]; [done|]. by rewrite append_cons, IH. Qed.

Lemma rev_app_spec (s acc : string) :
  String.rev_app s acc = String.rev s +:+ acc.
Proof.
  revert acc. induction s as [|a s IH]; intros acc; [done|].
  unfold String.rev. cbn [String.rev_app].
  rewrite (IH (String a acc)), (IH (String a "")).
  by rewrite string_app_assoc.
Qed.

Lemma rev_cons (a : ascii) (s : string) :
  String.rev (String a s) = String.rev s +:+ String a "".
Proof. unfold String.rev at 1. cbn [String.rev_app]. apply rev_app_spec. Qed.

Lemma rev_append (s t : string) :
  String.rev (s +:+ t) = String.rev t +:+ String.rev s.
Proof.
  induction s as [|a s IH].
  - change ("" +:+ t) with t. change (String.rev "") with "".
    by rewrite append_nil_r.
  - by rewrite append_cons, !rev_cons, IH, string_app_assoc.
Qed.

Lemma rev_involutive (s : string) : String.rev (String.rev s) = s.
Proof.
  induction s as [|a s IH]; [done|].
  by rewrite rev_cons, rev_append, IH.
Qed.

Lemma lstrip_suffix (s : string) : ∃ l, s = l +:+ Py.lstrip s.
Proof.
  induction s as [|c s [l IH]]; [by exists ""|]. simpl.
  destruct (Py.is_space c).
  - exists (String c l). by rewrite append_cons, <-IH.
  - by exists "".
Qed.

Lemma rstrip_prefix (s : string) : ∃ r, s = Py.rstrip s +:+ r.
Proof.
  unfold Py.rstrip. destruct (lstrip_suffix (String.rev s)) as [l Hl].
  exists (String.rev l).
  by rewrite <-rev_append, <-Hl, rev_involutive.
Qed.

(** The stripped text is a piece of the text. *)
Lemma strip_contained (s : string) : Py.contains (Py.strip s) s = true.
Proof.
  apply contains_app. unfold Py.strip.
  destruct (lstrip_suffix s) as [l Hl].
  destruct (rstrip_prefix (Py.lstrip s)) as [r Hr].
  exists l, r. by rewrite <-Hr.
Qed.

Lemma subject_candidate_in_Some (order : list string) (col cand : string) :
  subject_candidate_in order col = Some cand →
  cand ≠ "" ∧
  ∃ m, m ∈ order ∧ Py.contains m (Py.upper col) = true ∧
       cand = Py.strip (Py.split_head m (Py.upper col)).
Proof.
  induction order as [|m order IH]; [done|]. simpl.
  destruct (Py.contains m (Py.upper col)) eqn:Hm.
  - destruct (String.eqb_spec (Py.strip (Py.split_head m (Py.upper col))) "")
      as [|Hne]; [done|].
    intros [= <-]. split; [done|]. exists m. split; [left|done].
  - intros H. destruct (IH H) as (Hne & m' & Hin & Hm' & Hc).
    split; [done|]. exists m'. split; [by right|done].
Qed.

(** The candidate is a piece of the upper-cased header. *)
Lemma subject_candidate_contained (col cand : string) :
  subject_candidate col = Some cand →
  Py.contains cand (Py.upper col) = true.
Proof.
  intros H. apply subject_candidate_in_Some in H as (_ & m & _ & Hm & ->).
  eapply contains_trans; [apply strip_contained|].
  apply contains_app. destruct (split_head_occurrence _ _ Hm) as [post Hpost].
  by exists "", (m +:+ post).
Qed.

Lemma contains_underscore_cons (c : ascii) (s : string) :
  Py.contains "_" (String c s) = Ascii.eqb c "_" || Py.contains "_" s.
Proof.
  rewrite contains_cons. f_equal.
  destruct (Ascii.eqb_spec c "_") as [->|Hne].
  - by destruct s.
  - destruct (String.prefix "_" (String c s)) eqn:Hp; [|done].
    apply prefix_cons in Hp as [Hc _]. congruence.
Qed.

Lemma contains_underscore_map (f : ascii → ascii) (s : string) :
  (∀ c, Ascii.eqb (f c) "_" = Ascii.eqb c "_") →
  Py.contains "_" (Py.map_chars f s) = Py.contains "_" s.
Proof.
  intros Hf. induction s as [|c s IH]; [done|].
  cbn [Py.map_chars]. by rewrite !contains_underscore_cons, Hf, IH.
Qed.

Lemma upper_char_underscore (c : ascii) :
  Ascii.eqb (Py.upper_char c) "_" = Ascii.eqb c "_".
Proof. destruct c as [[] [] [] [] [] [] [] []]; reflexivity. Qed.

Lemma lower_char_underscore (c : ascii) :
  Ascii.eqb (Py.lower_char c) "_" = Ascii.eqb c "_".
Proof. destruct c as [[] [] [] [] [] [] [] []]; reflexivity. Qed.

Lemma contains_underscore_title (b : bool) (s : string) :
  Py.contains "_" (Py.title_go b s) = Py.contains "_" s.
Proof.
  revert b. induction s as [|c s IH]; intros b; [done|].
  cbn [Py.title_go]. rewrite !contains_underscore_cons, IH.
  by destruct b; rewrite ?lower_char_underscore, ?upper_char_underscore.
Qed.

Lemma underscores_to_spaces_clean (s : string) :
  Py.contains "_" (Py.underscores_to_spaces s) = false.
Proof.
  induction s as [|c s IH]; [done|].
  unfold Py.underscores_to_spaces in *. cbn [Py.map_chars].
  rewrite contains_underscore_cons, IH.
  by destruct (Ascii.eqb c "_") eqn:Hc; [|rewrite Hc].
Qed.

Lemma underscores_to_spaces_id (s : string) :
  Py.contains "_" s = false → Py.underscores_to_spaces s = s.
Proof.
  induction s as [|c s IH]; [done|].
  rewrite contains_underscore_cons, orb_false_iff. intros [Hc Hs].
  unfold Py.underscores_to_spaces in *. cbn [Py.map_chars].
  by rewrite Hc, IH.
Qed.

Lemma upper_lower_char (c : ascii) : Py.upper_char (Py.lower_char c) = Py.upper_char c.
Proof. destruct c as [[] [] [] [] [] [] [] []]; reflexivity. Qed.

Lemma upper_title_go (b : bool) (s : string) :
  Py.upper (Py.title_go b s) = Py.upper s.
Proof.
  revert b. induction s as [|c s IH]; intros b; [done|].
  cbn [Py.title_go Py.upper Py.map_chars]. f_equal; [|apply IH].
  destruct b; [apply upper_lower_char|apply upper_char_idemp].
Qed.

Lemma title_char_facts (c : ascii) :
  Py.is_cased (Py.upper_char c) = Py.is_cased c ∧
  Py.is_cased (Py.lower_char c) = Py.is_cased c ∧
  Py.lower_char (Py.lower_char c) = Py.lower_char c.
Proof. destruct c as [[] [] [] [] [] [] [] []]; repeat split; reflexivity. Qed.

Lemma title_go_idemp (b : bool) (s : string) :
  Py.title_go b (Py.title_go b s) = Py.title_go b s.
Proof.
  revert b. induction s as [|c s IH]; intros b; [done|].
  cbn [Py.title_go]. destruct (title_char_facts c) as (Hu & Hl & Hll).
  destruct b.
  - rewrite Hll, Hl. f_equal. apply IH.
  - rewrite upper_char_idemp, Hu. f_equal. apply IH.
Qed.

Lemma map_chars_nonempty (f : ascii → ascii) (s : string) :
  Py.map_chars f s = "" → s = "".
Proof. by destruct s. Qed.

Lemma title_go_nonempty (b : bool) (s : string) : Py.title_go b s = "" → s = "".
Proof. by destruct s. Qed.

Lemma normalise_facts (cand : string) :
  cand ≠ "" →
  normalise cand ≠ "" ∧
  Py.contains "_" (normalise cand) = false ∧
  normalise (normalise cand) = normalise cand.
Proof.
  intros Hne. unfold normalise, Py.title.
  assert (Py.contains "_" (Py.title_go false (Py.underscores_to_spaces cand)) = false)
    as Hclean by (by rewrite contains_underscore_title, underscores_to_spaces_clean).
  split; [|split; [done|]].
  - intros H. apply title_go_nonempty, map_chars_nonempty in H. done.
  - by rewrite (underscores_to_spaces_id _ Hclean), title_go_idemp.
Qed.

Lemma size_foldl_add_subject (cols : list string) (X : gset string) :
  size (foldl add_subject X cols) ≤ size X + length cols.
Proof.
  revert X. induction cols as [|col cols IH]; intros X; simpl; [lia|].
  etrans; [apply IH|].
  assert (size (add_subject X col) ≤ S (size X)); [|lia].
  unfold add_subject. destruct (column_subject col) as [s|]; [|lia].
  rewrite size_union_alt, size_singleton.
  assert (size (X ∖ {[s]}) ≤ size X)
    by (by apply subseteq_size, subseteq_difference_l). lia.
Qed.

(** X12: every name of the subject list is in normal form: it is not
    empty, holds no underscore, and is left unchanged by the
    normalisation (underscores to blanks, title case); and the list is no
    longer than the table has columns. *)
Theorem X12_subject_names (df : DataFrame) :
  (∀ s, s ∈ get_subject_list df →
        s ≠ "" ∧ Py.contains "_" s = false ∧ normalise s = s) ∧
  length (get_subject_list df) ≤ length (columns df).
Proof.
  split.
  - intros s Hs.
    apply elem_of_get_subject_list, elem_of_subject_set in Hs
      as (col & _ & _ & Hsub).
    unfold column_subject in Hsub.
    destruct (subject_candidate col) as [cand|] eqn:Hcand; [|done].
    injection Hsub as <-.
    apply subject_candidate_in_Some in Hcand as [Hne _].
    by apply normalise_facts.
  - unfold get_subject_list. rewrite merge_sort_Permutation.
    change (length (elements (subject_set df))) with (size (subject_set df)).
    unfold subject_set. etrans; [apply size_foldl_add_subject|].
    rewrite size_empty. simpl. apply length_filter.
Qed.

Lemma X12_subject_names_witness :
  "Maths" ≠ "" ∧ Py.contains "_" "Maths" = false ∧ normalise "Maths" = "Maths".
Proof.
  apply (proj1 (X12_subject_names scenario) "Maths").
  assert (get_subject_list scenario = ["Dbms"; "Maths"]) as -> by (by vm_compute).
  right. left.
Defined.

Lemma exam_type_of_marker (m col_upper : string) :
  m ∈ assessments → Py.contains m col_upper = true →
  is_Some (exam_type_of col_upper).
Proof.
  intros Hm Hin. unfold exam_type_of. rewrite contains_PRACTICAL_PR.
  assert (Py.contains "PRACTICAL" col_upper = true →
          Py.contains "PR" col_upper = true) as Hp
    by apply (contains_app_l "PR" "ACTICAL").
  destruct (Py.contains "ESE" col_upper) eqn:He; [by eexists|].
  destruct (Py.contains "ISE" col_upper) eqn:Hi; [by eexists|].
  destruct (Py.contains "MSE" col_upper) eqn:Hms; [by eexists|].
  destruct (Py.contains "PR" col_upper) eqn:Hpr; [by eexists|].
  destruct (Py.contains "TW" col_upper) eqn:Htw; [by eexists|].
  unfold assessments in Hm.
  repeat (apply elem_of_cons in Hm as [->|Hm];
          [first [congruence | apply Hp in Hin; congruence]|]).
  by apply elem_of_nil in Hm.
Qed.

(** X13: a subject found through a header without underscore finds that
    header again: the upper-cased header contains the upper-cased subject
    name, so the subject has at least one exam type, and when the header
    carries ["MSE"] or ["ESE"] the column is among those that
    [get_subject_marks] sums for the subject, which then has marks. *)
Theorem X13_subject_finds_its_column (df : DataFrame) (col s : string) :
  col ∈ columns df →
  column_subject col = Some s →
  Py.contains "_" col = false →
  Py.contains (Py.upper s) (Py.upper col) = true ∧
  get_subject_exam_types df s ≠ [] ∧
  (Py.contains "MSE" (Py.upper col) = true ∨
   Py.contains "ESE" (Py.upper col) = true →
   col ∈ exam_cols df s ∧ get_subject_marks df s ≠ None).
Proof.
  intros Hcol Hsub Hclean. unfold column_subject in Hsub.
  destruct (subject_candidate col) as [cand|] eqn:Hcand; [|done].
  injection Hsub as <-.
  pose proof (subject_candidate_contained col cand Hcand) as Hin.
  assert (Py.contains "_" cand = false) as Hcand_clean.
  { destruct (Py.contains "_" cand) eqn:Hu; [|done].
    pose proof (contains_trans _ _ _ Hu Hin) as Hbad.
    unfold Py.upper in Hbad.
    rewrite (contains_underscore_map _ _ upper_char_underscore) in Hbad.
    congruence. }
  assert (Py.contains (Py.upper (normalise cand)) (Py.upper col) = true) as Hfound.
  { unfold normalise, Py.title.
    rewrite (underscores_to_spaces_id _ Hcand_clean), upper_title_go.
    rewrite <-(upper_idemp col). by apply contains_upper. }
  split; [done|]. split.
  - apply subject_candidate_in_Some in Hcand as (_ & m & Hm & Hocc & _).
    destruct (exam_type_of_marker m (Py.upper col) Hm Hocc) as [t Ht].
    assert (t ∈ get_subject_exam_types df (normalise cand)) as Hty
      by (apply elem_of_get_subject_exam_types; by exists col).
    intros Hnil. rewrite Hnil in Hty. by inversion Hty.
  - intros Hexam.
    assert (col ∈ exam_cols df (normalise cand)) as Hsel.
    { rewrite exam_cols_filter. apply list_elem_of_filter. split; [|done].
      unfold is_exam_col. apply Is_true_true, andb_true_iff. split; [done|].
      by apply orb_true_iff. }
    split; [done|]. rewrite get_subject_marks_None.
    intros Hnil. rewrite Hnil in Hsel. by inversion Hsel.
Qed.

Lemma X13_subject_finds_its_column_witness :
  Py.contains (Py.upper "Maths") (Py.upper "MATHS MSE") = true ∧
  get_subject_exam_types scenario "Maths" ≠ [] ∧
  (Py.contains "MSE" (Py.upper "MATHS MSE") = true ∨
   Py.contains "ESE" (Py.upper "MATHS MSE") = true →
   "MATHS MSE" ∈ exam_cols scenario "Maths" ∧
   get_subject_marks scenario "Maths" ≠ None).
Proof.
  apply (X13_subject_finds_its_column scenario "MATHS MSE" "Maths").
  - unfold scenario. simpl. do 2 right. left.
  - reflexivity.
  - reflexivity.
Defined.

(** The hypothesis on underscores is needed: [get_subject_list] turns them
    into blanks, and the name with blanks is not found in the header. *)
Example underscore_subject_has_no_marks :
  let df := {| columns := ["DATA_STRUCTURES MSE"]; rows := [] |} in
  get_subject_list df = ["Data Structures"] ∧
  get_subject_marks df "Data Structures" = None ∧
  get_subject_exam_types df "Data Structures" = [].
Proof. by vm_compute. Qed.

(** ** The subject page and the difficulty analysis *)

Lemma negb_existsb_Forall {A} (f : A → bool) (l : list A) :
  negb (existsb f l) = true ↔ Forall (λ x, f x = false) l.
Proof.
  induction l as [|x l IH]; simpl.
  - split; [constructor|done].
  - rewrite negb_orb, andb_true_iff, IH, negb_true_iff, Forall_cons. tauto.
Qed.

Lemma prefix_contains (m s : string) :
  String.prefix m s = true → Py.contains m s = true.
Proof.
  rewrite prefix_app, contains_app. intros [post ->]. by exists "", post.
Qed.

Lemma subject_page_col_spec (selected_subject col : string) :
  is_subject_page_col selected_subject col = true ↔
  Py.contains (Py.upper selected_subject) (Py.upper col) = true ∧
  Forall (λ word, Py.contains word (Py.upper col) = false) exclude_words.
Proof.
  unfold is_subject_page_col.
  rewrite andb_true_iff, orb_true_iff, negb_existsb_Forall.
  pose proof (prefix_contains (Py.upper selected_subject) (Py.upper col)).
  tauto.
Qed.

(** X14: the subject page keeps a column exactly when its upper-cased
    header contains the upper-cased subject name (the [startswith] test
    adds nothing) and none of the words ACADEMIC, PERFORMANCE, CODING,
    EXPERTISE, CATEGORY.  Hence a subject whose name contains one of
    these words never has a column on the page, and every column that
    [get_subject_marks] sums and that is free of these words is kept. *)
Theorem X14_subject_page_columns (df : DataFrame) (selected_subject : string) :
  (∀ col, col ∈ subject_page_cols df selected_subject ↔
          col ∈ columns df ∧
          Py.contains (Py.upper selected_subject) (Py.upper col) = true ∧
          Forall (λ word, Py.contains word (Py.upper col) = false) exclude_words) ∧
  (Exists (λ word, Py.contains word (Py.upper selected_subject) = true) exclude_words →
   subject_page_cols df selected_subject = []) ∧
  (∀ col, col ∈ exam_cols df selected_subject →
          Forall (λ word, Py.contains word (Py.upper col) = false) exclude_words →
          col ∈ subject_page_cols df selected_subject).
Proof.
  assert (∀ col, col ∈ subject_page_cols df selected_subject ↔
                 col ∈ columns df ∧
                 Py.contains (Py.upper selected_subject) (Py.upper col) = true ∧
                 Forall (λ word, Py.contains word (Py.upper col) = false)
                        exclude_words) as Hspec.
  { intros col. unfold subject_page_cols.
    rewrite foldl_append_if, app_nil_l, list_elem_of_filter.
    rewrite Is_true_true, subject_page_col_spec. tauto. }
  split; [done|]. split.
  - intros Hword. apply elem_of_nil_inv. intros col Hin.
    apply Hspec in Hin as (_ & Hsub & Hfree).
    apply Exists_exists in Hword as (word & Hw & Hocc).
    rewrite Forall_forall in Hfree. specialize (Hfree word Hw).
    pose proof (contains_trans _ _ _ Hocc Hsub). congruence.
  - intros col Hsel Hfree. apply Hspec.
    rewrite exam_cols_filter in Hsel.
    apply list_elem_of_filter in Hsel as [Hexam Hcol].
    unfold is_exam_col in Hexam.
    apply Is_true_true, andb_true_iff in Hexam as [Hsub _]. done.
Qed.

Lemma X14_subject_page_columns_witness :
  subject_page_cols {| columns := ["CODING MSE"; "CODING ESE"]; rows := [] |}
                    "Coding" = [] ∧
  "MATHS MSE" ∈ subject_page_cols scenario "Maths".
Proof.
  split.
  - apply (proj1 (proj2 (X14_subject_page_columns _ "Coding"))).
    unfold exclude_words. do 2 right. left. reflexivity.
  - apply (proj2 (proj2 (X14_subject_page_columns scenario "Maths"))).
    + assert (exam_cols scenario "Maths" = ["MATHS MSE"; "MATHS ESE"]) as ->
        by (by vm_compute).
      left.
    + repeat constructor.
Defined.

Lemma Qlt_bool_spec (x y : Q) : Qlt_bool x y = true ↔ (x < y)%Q.
Proof.
  unfold Qlt_bool. rewrite Qlt_alt. destruct (x ?= y)%Q; split; done.
Qed.

Lemma inject_Z_S (n : nat) :
  (inject_Z (Z.of_nat (S n)) == 1 + inject_Z (Z.of_nat n))%Q.
Proof.
  rewrite Nat2Z.inj_succ. unfold Z.succ. rewrite inject_Z_plus. ring.
Qed.

Lemma inject_Z_nat_nonneg (n : nat) : (0 <= inject_Z (Z.of_nat n))%Q.
Proof. change 0%Q with (inject_Z 0). rewrite <-Zle_Qle. lia. Qed.

Lemma Qsum_le_bound (c : Q) (l : list Q) :
  Forall (λ m, (m < c)%Q) l →
  (Qsum l <= c * inject_Z (Z.of_nat (length l)))%Q.
Proof.
  induction 1 as [|m l Hm _ IH].
  - change (inject_Z (Z.of_nat (length []))) with 0%Q.
    rewrite Qmult_0_r. apply Qle_refl.
  - rewrite Qsum_cons. cbn [length]. rewrite inject_Z_S. lra.
Qed.

(** The mean of marks that are all below [c] is below [c]. *)
Lemma np_mean_lt (c x : Q) (l : list Q) :
  Forall (λ m, (m < c)%Q) (x :: l) → (np_mean (x :: l) < c)%Q.
Proof.
  intros Hall. apply Forall_cons in Hall as [Hx Hl].
  pose proof (Qsum_le_bound c l Hl) as Hsum.
  pose proof (inject_Z_nat_nonneg (length l)) as Hlen.
  unfold np_mean. apply Qlt_shift_div_r.
  - cbn [length]. rewrite inject_Z_S. lra.
  - rewrite Qsum_cons. cbn [length]. rewrite inject_Z_S. lra.
Qed.

Lemma Forall_or_Exists_ge (c : Q) (l : list Q) :
  Forall (λ m, (m < c)%Q) l ∨ Exists (λ m, (c <= m)%Q) l.
Proof.
  induction l as [|m l [IH|IH]].
  - left. constructor.
  - destruct (Qlt_le_dec m c) as [Hlt|Hle].
    + left. by constructor.
    + right. by left.
  - right. by right.
Qed.

Lemma filter_full_length {A} (P : A → Prop) `{∀ x, Decision (P x)} (l : list A) :
  length (filter P l) = length l → Forall P l.
Proof.
  induction l as [|x l IH]; [constructor|].
  destruct (decide (P x)) as [HP|HP].
  - rewrite filter_cons_True by done. simpl. intros [= Hlen].
    constructor; auto.
  - rewrite filter_cons_False by done. simpl. intros Hlen.
    pose proof (length_filter P l). lia.
Qed.

Lemma fail_rate_range (x : Q) (l : list Q) :
  (0 <= fail_rate (x :: l))%Q ∧ (fail_rate (x :: l) <= 100)%Q ∧
  ((fail_rate (x :: l) == 100)%Q →
   Forall (λ m, (m < 34)%Q) (x :: l)).
Proof.
  unfold fail_rate.
  set (failed := filter (λ m, Qlt_bool m (max_possible_marks * (4 # 10))) (x :: l)).
  pose proof (length_filter (λ m, Qlt_bool m (max_possible_marks * (4 # 10)))
                (x :: l)) as Hle. fold failed in Hle.
  set (k := inject_Z (Z.of_nat (length failed))).
  set (n := inject_Z (Z.of_nat (length (x :: l)))).
  assert (0 <= k)%Q as Hk by apply inject_Z_nat_nonneg.
  assert (k <= n)%Q as Hkn by (unfold k, n; rewrite <-Zle_Qle; lia).
  assert (0 < n)%Q as Hn.
  { unfold n. cbn [length]. rewrite inject_Z_S.
    pose proof (inject_Z_nat_nonneg (length l)). lra. }
  assert (0 <= k / n)%Q as Hr0 by (apply Qle_shift_div_l; lra).
  assert (k / n <= 1)%Q as Hr1 by (apply Qle_shift_div_r; lra).
  split; [lra|]. split; [lra|].
  intros H100.
  assert (k == n)%Q as Heq.
  { assert (k / n == 1)%Q as Hone by lra.
    rewrite <-(Qmult_div_r k n) by lra. rewrite Hone. ring. }
  unfold k, n in Heq. apply inject_Z_injective, Nat2Z.inj in Heq.
  apply filter_full_length in Heq.
  eapply Forall_impl; [exact Heq|].
  intros m Hm. apply Is_true_true, Qlt_bool_spec in Hm.
  unfold max_possible_marks in Hm. lra.
Qed.

(** X15: the difficulty analysis of a subject is made exactly when
    [subject_marks] is a non-empty list, so it never divides by zero.  The
    fail rate then lies between 0 and 100; it is 100 only when every total
    is below 34 (40 percent of 85), and the subject is then rated
    Difficult; a subject rated Easy has a total of at least 60 and a fail
    rate below 100. *)
Theorem X15_subject_difficulty (subject_marks : option (list Q)) :
  (subject_difficulty_entry subject_marks = None ↔ truthy subject_marks = false) ∧
  (∀ avg_marks rate level,
     subject_difficulty_entry subject_marks = Some (avg_marks, rate, level) →
     ∃ marks,
       subject_marks = Some marks ∧ marks ≠ [] ∧
       (0 <= rate)%Q ∧ (rate <= 100)%Q ∧
       ((rate == 100)%Q →
        Forall (λ m, (m < 34)%Q) marks ∧ level = Difficult) ∧
       (level = Easy →
        Exists (λ m, (60 <= m)%Q) marks ∧ (rate < 100)%Q)).
Proof.
  unfold subject_difficulty_entry.
  destruct subject_marks as [[|x l]|]; simpl; (split; [done|]); try done.
  intros avg_marks rate level [= <- <- <-].
  exists (x :: l). split; [done|]. split; [done|].
  destruct (fail_rate_range x l) as (H0 & H100 & Hall).
  assert ((fail_rate (x :: l) == 100)%Q →
          difficulty_level (np_mean (x :: l)) = Difficult) as Hdiff.
  { intros Heq. pose proof (np_mean_lt 34 x l (Hall Heq)) as Hmean.
    unfold difficulty_level.
    destruct (Qle_bool 60 (np_mean (x :: l))) eqn:H60.
    { apply Qle_bool_iff in H60. lra. }
    destruct (Qle_bool 40 (np_mean (x :: l))) eqn:H40; [|done].
    apply Qle_bool_iff in H40. lra. }
  split; [done|]. split; [done|]. split; [by auto|].
  intros Heasy. split.
  - destruct (Forall_or_Exists_ge 60 (x :: l)) as [Hall60|Hex]; [|done].
    pose proof (np_mean_lt 60 x l Hall60) as Hmean.
    unfold difficulty_level in Heasy.
    destruct (Qle_bool 60 (np_mean (x :: l))) eqn:H60.
    + apply Qle_bool_iff in H60. lra.
    + by destruct (Qle_bool 40 (np_mean (x :: l))).
  - destruct (Qlt_le_dec (fail_rate (x :: l)) 100) as [Hlt|Hge]; [done|].
    assert (fail_rate (x :: l) == 100)%Q as Heq by lra.
    rewrite (Hdiff Heq) in Heasy. done.
Qed.

Lemma X15_subject_difficulty_witness :
  ∃ avg_marks rate level,
    subject_difficulty_entry (get_subject_marks three_students "Maths")
    = Some (avg_marks, rate, level) ∧
    ∃ marks,
      get_subject_marks three_students "Maths" = Some marks ∧ marks ≠ [] ∧
      (0 <= rate)%Q ∧ (rate <= 100)%Q ∧
      ((rate == 100)%Q →
       Forall (λ m, (m < 34)%Q) marks ∧ level = Difficult) ∧
      (level = Easy →
       Exists (λ m, (60 <= m)%Q) marks ∧ (rate < 100)%Q).
Proof.
  eexists _, _, _. split; [by vm_compute|].
  eapply (proj2 (X15_subject_difficulty (get_subject_marks three_students "Maths"))).
  by vm_compute.
Defined.

(** ** Practical columns and exam types *)

Lemma upper_empty (s : string) : String.eqb (Py.upper s) "" = String.eqb s "".
Proof. by destruct s. Qed.

Lemma is_practical_col_contains_PR (col : string) :
  _is_practical_col col = true → Py.contains "PR" (Py.upper col) = true.
Proof.
  intros H. apply is_practical_col_upper in H as [Hp|Hw].
  - by apply (contains_app_l "PR" "ACTICAL").
  - by apply word_search_go_contains in Hw.
Qed.

(** X16: [_is_practical_col] does not depend on the letter case of the
    header, and it agrees with [get_subject_exam_types]: a practical
    column is never counted as TW there, and when it carries none of
    ["ESE"], ["ISE"] and ["MSE"] it gives the subject it belongs to the
    exam type PRACTICAL. *)
Theorem X16_practical_and_exam_types (df : DataFrame) (subject_name col : string) :
  _is_practical_col (Py.upper col) = _is_practical_col col ∧
  (_is_practical_col col = true →
   exam_type_of (Py.upper col) ≠ Some "TW" ∧
   is_Some (exam_type_of (Py.upper col)) ∧
   (col ∈ columns df →
    Py.contains (Py.upper subject_name) (Py.upper col) = true →
    Py.contains "ESE" (Py.upper col) = false →
    Py.contains "ISE" (Py.upper col) = false →
    Py.contains "MSE" (Py.upper col) = false →
    "PRACTICAL" ∈ get_subject_exam_types df subject_name)).
Proof.
  split.
  - unfold _is_practical_col. by rewrite upper_empty, upper_idemp.
  - intros Hprac. apply is_practical_col_contains_PR in Hprac.
    assert (∀ t, exam_type_of (Py.upper col) = Some t → t ≠ "TW") as Hnot.
    { unfold exam_type_of. rewrite contains_PRACTICAL_PR, Hprac.
      intros t Ht.
      repeat match type of Ht with
             | (if ?b then _ else _) = _ => destruct b
             end; by injection Ht as <-. }
    split; [|split].
    + intros Htw. by apply (Hnot "TW").
    + unfold exam_type_of. rewrite contains_PRACTICAL_PR, Hprac.
      repeat match goal with
             | |- context [if ?b then _ else _] => destruct b
             end; by eexists.
    + intros Hcol Hsub He Hi Hm.
      apply elem_of_get_subject_exam_types. exists col.
      split; [done|]. split; [done|].
      unfold exam_type_of. by rewrite contains_PRACTICAL_PR, He, Hi, Hm, Hprac.
Qed.

Lemma X16_practical_and_exam_types_witness :
  exam_type_of (Py.upper "DBMS PRACTICAL") ≠ Some "TW" ∧
  is_Some (exam_type_of (Py.upper "DBMS PRACTICAL")) ∧
  ("DBMS PRACTICAL" ∈ columns scenario →
   Py.contains (Py.upper "Dbms") (Py.upper "DBMS PRACTICAL") = true →
   Py.contains "ESE" (Py.upper "DBMS PRACTICAL") = false →
   Py.contains "ISE" (Py.upper "DBMS PRACTICAL") = false →
   Py.contains "MSE" (Py.upper "DBMS PRACTICAL") = false →
   "PRACTICAL" ∈ get_subject_exam_types scenario "Dbms").
Proof.
  apply (proj2 (X16_practical_and_exam_types scenario "Dbms" "DBMS PRACTICAL")).
  reflexivity.
Defined.
